(** * solaredge-emporia-autocharge: the charging control loop

    A shallow embedding of [solaredge-emporia-autocharge.py]: the start-up
    configuration, the sliding average, the per-cycle function
    [update_charge_amp_by_solaredge_data] and the service loop around it,
    followed by the properties of the control loop.

    Conventions of the embedding.
    - Python [int] is [Z].
    - Python [float] is IEEE 754 binary64, as [spec_float] with a precision
      of 53 bits: sums, differences, products and quotients are rounded to
      nearest, ties to even, and infinities and NaN exist.  [round(x, 2)]
      rounds the exact value of [x] to hundredths, ties to even, and takes
      the nearest float of the result; [int(x)] drops the fractional part
      and refuses infinities and NaN.
    - An exception is a value of [exn]; a call that may raise returns a
      [result].  The per-cycle function lives in a small monad that threads
      the mutable state of the process and collects what the process emits.
    - The answers of the two vendor back ends during one cycle are a
      [cycle_env]; the endless [while True] loop is run over the list of
      environments of the cycles that are scheduled. *)

From Stdlib Require Import ZArith QArith Qround List String Bool Lia.
From Stdlib Require Import SpecFloat.
Import ListNotations.

Local Open Scope Z_scope.

(** ** Exceptions and results *)

Inductive exn : Type :=
| RequestException      (* requests.get could not reach the server *)
| TypeError             (* [raise response.status_code]: raising an int *)
| JSONDecodeError       (* response.json() on a body that is not JSON *)
| KeyError              (* a missing key in the power-flow dictionary *)
| ValueError            (* float() of a non-number, int(nan), time.sleep(<0) *)
| OverflowError         (* int(inf) *)
| ZeroDivisionError     (* sum(values) / len(values) on an empty list *)
| VueError.             (* any exception raised inside pyemvue *)

Inductive result (A : Type) : Type :=
| Ok (a : A)
| Raise (e : exn).

Arguments Ok {A} a.
Arguments Raise {A} e.

(** ** Python primitives on numbers and lists *)

Module Py.

Definition float : Type := spec_float.

Definition prec : Z := 53.
Definition emax : Z := 1024.

Definition add : float -> float -> float := SFadd prec emax.
Definition sub : float -> float -> float := SFsub prec emax.
Definition mul : float -> float -> float := SFmul prec emax.
(** The quotient by a divisor that is not zero. *)
Definition div : float -> float -> float := SFdiv prec emax.

(** [float(n)] for an integer. *)
Definition of_int (n : Z) : float := binary_normalize prec emax n 0 false.

(** [a / b] on two integers: the float nearest to the fraction, which is
    also the float of the decimal literal a/100 when b is 100. *)
Definition ratio (a b : Z) : float := div (of_int a) (of_int b).

(** [x / n] for a float and an integer. *)
Definition div_int (x : float) (n : Z) : result float :=
  if n =? 0 then Raise ZeroDivisionError else Ok (div x (of_int n)).

Definition sign (x : float) : bool :=
  match x with
  | S754_zero s | S754_infinity s | S754_finite s _ _ => s
  | S754_nan => false
  end.

(** The exact value of a finite float: [m * 2^e], with its sign. *)
Definition exact (x : float) : option Q :=
  match x with
  | S754_zero _ => Some 0%Q
  | S754_finite s m e =>
      let n := if s then Zneg m else Zpos m in
      Some (if 0 <=? e then inject_Z (n * 2 ^ e)
            else Qmake n (2 ^ Z.to_pos (- e)))
  | S754_infinity _ | S754_nan => None
  end.

(** [x] is finite and its exact value is [q]. *)
Definition denotes (x : float) (q : Q) : Prop :=
  match exact x with
  | Some q' => (q' == q)%Q
  | None => False
  end.

(** [int(x)]: truncation toward zero. *)
Definition int (x : float) : result Z :=
  match x with
  | S754_zero _ => Ok 0
  | S754_finite s m e =>
      let magnitude := if 0 <=? e then Zpos m * 2 ^ e
                       else Zpos m / 2 ^ (- e) in
      Ok (if s then - magnitude else magnitude)
  | S754_infinity _ => Raise OverflowError
  | S754_nan => Raise ValueError
  end.

(** Nearest integer of a rational, ties to the even neighbour. *)
Definition round_half_even (q : Q) : Z :=
  let f := Qfloor q in
  match Qcompare (q - inject_Z f) (1 # 2) with
  | Lt => f
  | Gt => f + 1
  | Eq => if Z.even f then f else f + 1
  end.

(** [round(x, 2)]: the float nearest to the exact value of [x] rounded to
    hundredths; infinities and NaN round to themselves, and a result of
    zero keeps the sign of [x]. *)
Definition round2 (x : float) : float :=
  match exact x with
  | None => x
  | Some q =>
      match round_half_even (q * 100) with
      | Z0 => S754_zero (sign x)
      | Zpos n => div (S754_finite false n 0) (S754_finite false 100 0)
      | Zneg n => div (S754_finite true n 0) (S754_finite false 100 0)
      end
  end.

(** [sum(l)] on floats: the accumulator starts at zero and the values are
    added from left to right.  (CPython 3.12 and later carry a correction
    term along, which stays zero as long as the additions are exact.) *)
Definition sum (l : list float) : float := fold_left add l (S754_zero false).

(** [len(l)]. *)
Definition len {A} (l : list A) : Z := Z.of_nat (List.length l).

(** [l[start:]]: a negative start counts from the end, and the start is
    clipped to the list. *)
Definition slice_from {A} (start : Z) (l : list A) : list A :=
  let i := if start <? 0 then Z.max (len l + start) 0
           else Z.min start (len l) in
  skipn (Z.to_nat i) l.

(** Truthiness of [os.getenv(...)]: [None] and the empty string are false. *)
Definition truthy (s : option string) : bool :=
  match s with
  | None => false
  | Some s => negb (String.eqb s EmptyString)
  end.

End Py.

(** ** Configuration (lines 32-82) *)

Definition MIN_AMPS : Z := 6.
Definition MAX_AMPS : Z := 40.

(** The command-line options after [int(...)]; [None] when the option is
    not given. *)
Record args : Type := {
  arg_freq : option Z;
  arg_smooth : option Z;
  arg_min_amps : option Z;
  arg_max_amps : option Z;
  arg_offset_amps : option Z
}.

(** The module-level settings the loop reads. *)
Record config : Type := {
  SOLAREDGE_SITE : option string;
  update_freq : Z;
  smooth : Z;
  min_amps : Z;
  max_amps : Z;
  offset_amps : Z
}.

Definition no_args : args :=
  {| arg_freq := None; arg_smooth := None; arg_min_amps := None;
     arg_max_amps := None; arg_offset_amps := None |}.

Definition configure (site : option string) (a : args) : config :=
  {| SOLAREDGE_SITE := site;
     update_freq := match arg_freq a with Some f => f | None => 60 end;
     smooth := match arg_smooth a with Some s => s | None => 5 end;
     min_amps := match arg_min_amps a with
                 | Some m => Z.max m MIN_AMPS
                 | None => MIN_AMPS
                 end;
     max_amps := match arg_max_amps a with
                 | Some m => Z.min m MAX_AMPS
                 | None => MAX_AMPS
                 end;
     offset_amps := match arg_offset_amps a with Some o => o | None => 0 end |}.

(** ** From smoothed power to the commanded current (lines 229-231) *)

(** [average_kw * 1000 / 240] *)
Definition amps_quotient (average_kw : Py.float) : Py.float :=
  Py.div (Py.mul average_kw (Py.of_int 1000)) (Py.of_int 240).

Definition amps_from_kw (average_kw : Py.float) : result Z :=
  Py.int (amps_quotient average_kw).

(** [max(min(amps, max_amps), min_amps)] *)
Definition clamp (a lo hi : Z) : Z := Z.max (Z.min a hi) lo.

Definition final_amps (cfg : config) (amps_from_kw : Z) : Z :=
  let amps := amps_from_kw + offset_amps cfg in
  clamp amps (min_amps cfg) (max_amps cfg).

(** The decision of line 238: a write is needed when the charger's
    recorded rate differs from the target. *)
Definition changed (pre_change final : Z) : bool := negb (pre_change =? final).

(** ** The sliding average (lines 179-192)

    The function attribute [sliding_average.values] is the buffer; it does
    not exist before the first call. *)

Definition sliding_average
  (buf : option (list Py.float)) (num : Py.float) (list_size : Z)
  : result Py.float * option (list Py.float) :=
  let values := match buf with None => [] | Some l => l end in
  let values := values ++ [num] in
  let values := if Py.len values >? list_size
                then Py.slice_from (- list_size) values
                else values in
  (Py.div_int (Py.sum values) (Py.len values), Some values).

(** ** The vendor back ends *)

(** The power-flow dictionary, seen through the two look-ups of lines
    212-213: [float(overview['siteCurrentPowerFlow'][k]['currentPower'])]
    yields a number or raises. *)
Record overview : Type := {
  PV_currentPower : result Py.float;
  LOAD_currentPower : result Py.float
}.

(** [{}]: every look-up raises KeyError. *)
Definition empty_dict : overview :=
  {| PV_currentPower := Raise KeyError; LOAD_currentPower := Raise KeyError |}.

Record response : Type := {
  status_code : Z;
  json : result overview
}.

(** Lines 101-117; [get] is the outcome of [requests.get]. *)
Definition solaredge_get_site_power_flow
  (site_id : option string) (get : result response) : result overview :=
  if negb (Py.truthy site_id) then Ok empty_dict
  else match get with
       | Raise e => Raise e
       | Ok response =>
           if negb (status_code response =? 200) then Raise TypeError
           else json response
       end.

(** The usage tree returned by pyemvue: a device has channels, a channel
    has a usage (a number or [None]) and nested devices. *)
Inductive device : Type :=
| Device (channels : list channel)
with channel : Type :=
| Channel (usage : option Py.float) (nested_devices : list device).

(** Lines 119-129: the running total [usage] over one device.  The total
    starts from the integer 0, which adds like the float 0.0. *)
Fixpoint device_usage (usage : Py.float) (d : device) : Py.float :=
  match d with
  | Device channels =>
      fold_left
        (fun usage c =>
           match c with
           | Channel u nested =>
               let usage := match u with
                            | Some x => Py.add usage x
                            | None => usage
                            end in
               match nested with
               | [] => usage
               | _ :: _ =>
                   Py.add usage (fold_left device_usage nested (S754_zero false))
               end
           end)
        channels usage
  end.

Definition vue_calc_usage_recursive (usage_dict : list device) : Py.float :=
  fold_left device_usage usage_dict (S754_zero false).

(** What the outside world answers during one cycle. *)
Record cycle_env : Type := {
  requests_get : result response;
  (* vue.get_device_list_usage(...) *)
  get_device_list_usage : result (list device);
  (* vue.update_charger(charger): raises, or returns the charger with the
     charging rate of the back end's answer stored in it *)
  update_charger_reply : result Z;
  (* the charging rate the Emporia back end holds for the charger when the
     cycle starts; a change made from the vendor's app shows up here *)
  backend_charging_rate : Z
}.

(** ** Process state, output and the cycle monad *)

Record state : Type := {
  values : option (list Py.float);   (* sliding_average.values *)
  charging_rate : Z                  (* charger_device.ev_charger.charging_rate *)
}.

Inductive event : Type :=
| PrintSolarEdgeError                      (* line 200 *)
| PrintNoChange (pre_change : Z)           (* line 239 *)
| UpdateCharger (rate : Z)                 (* line 242: the setpoint write *)
| PrintAmpChanged (pre_change now : Z)     (* line 243 *)
| Sleep (seconds : Z).                     (* line 254 *)

Definition M (A : Type) : Type := state -> result A * state * list event.

Definition ret {A} (a : A) : M A := fun st => (Ok a, st, []).

Definition bind {A B} (m : M A) (k : A -> M B) : M B :=
  fun st =>
    match m st with
    | (Ok a, st1, out1) =>
        let '(r, st2, out2) := k a st1 in (r, st2, out1 ++ out2)
    | (Raise e, st1, out1) => (Raise e, st1, out1)
    end.

Declare Scope cycle_scope.
Delimit Scope cycle_scope with cycle.
Notation "x <- m ;; k" := (bind m (fun x => k))
  (at level 100, m at next level, right associativity) : cycle_scope.
Notation "m ;; k" := (bind m (fun _ => k))
  (at level 100, right associativity) : cycle_scope.

Definition lift {A} (r : result A) : M A := fun st => (r, st, []).
Definition emit (e : event) : M unit := fun st => (Ok tt, st, [e]).
Definition get_charging_rate : M Z := fun st => (Ok (charging_rate st), st, []).
Definition set_charging_rate (r : Z) : M unit :=
  fun st => (Ok tt, {| values := values st; charging_rate := r |}, []).

Definition call_sliding_average (num : Py.float) (list_size : Z) : M Py.float :=
  fun st =>
    let '(r, buf) := sliding_average (values st) num list_size in
    (r, {| values := buf; charging_rate := charging_rate st |}, []).

(** [vue.update_charger(charger)]: the write carries the rate stored in
    the charger object. *)
Definition update_charger (env : cycle_env) : M Z :=
  (rate <- get_charging_rate ;;
   emit (UpdateCharger rate) ;;
   now <- lift (update_charger_reply env) ;;
   set_charging_rate now ;;
   ret now)%cycle.

(** [time.sleep(secs)] refuses a negative length. *)
Definition time_sleep (secs : Z) : M unit :=
  if secs <? 0 then lift (Raise ValueError) else emit (Sleep secs).

(** ** The cycle (lines 195-243) *)

(** Lines 216-223: the fused reading, from the two site readings and the
    charger's usage over the last minute in kWh. *)
Definition available_for_charger_kw (prod_kw cons_kw usage : Py.float) : Py.float :=
  let prod_min_cons_kw := Py.round2 (Py.sub prod_kw cons_kw) in
  let cur_charger_usage_kw := Py.round2 (Py.mul usage (Py.of_int 60)) in
  Py.round2 (Py.add prod_min_cons_kw cur_charger_usage_kw).

Definition update_charge_amp_by_solaredge_data
  (cfg : config) (env : cycle_env) : M unit :=
  match solaredge_get_site_power_flow (SOLAREDGE_SITE cfg) (requests_get env) with
  | Raise _ => emit PrintSolarEdgeError
  | Ok overview =>
      (prod_kw <- lift (PV_currentPower overview) ;;
       cons_kw <- lift (LOAD_currentPower overview) ;;
       device_usage_dict <- lift (get_device_list_usage env) ;;
       let usage := vue_calc_usage_recursive device_usage_dict in
       avg <- call_sliding_average
                (available_for_charger_kw prod_kw cons_kw usage) (smooth cfg) ;;
       let average_kw := Py.round2 avg in
       raw <- lift (amps_from_kw average_kw) ;;
       let final := final_amps cfg raw in
       pre_change <- get_charging_rate ;;
       if changed pre_change final then
         set_charging_rate final ;;
         now <- update_charger env ;;
         emit (PrintAmpChanged pre_change now)
       else emit (PrintNoChange pre_change))%cycle
  end.

(** ** Start-up and the service loop (lines 161-176 and 249-254) *)

(** A device of the account; [ev_charger] is the charging rate of its
    charger when it has one. *)
Record vue_device : Type := { ev_charger : option Z }.

Fixpoint identify_charger (devices : list vue_device) : option Z :=
  match devices with
  | [] => None
  | d :: rest =>
      match ev_charger d with
      | Some rate => Some rate
      | None => identify_charger rest
      end
  end.

(** The state in which the loop is entered; [None] is [exit(1)]. *)
Definition startup (devices : list vue_device) : option state :=
  match identify_charger devices with
  | Some rate => Some {| values := None; charging_rate := rate |}
  | None => None
  end.

(** How a run over the scheduled cycles ends: still looping, or stopped by
    an exception that nothing caught. *)
Inductive run : Type :=
| Running (st : state) (out : list event)
| Terminated (e : exn) (st : state) (out : list event).

Definition emitted (out : list event) (r : run) : run :=
  match r with
  | Running st out' => Running st (out ++ out')
  | Terminated e st out' => Terminated e st (out ++ out')
  end.

Fixpoint service (cfg : config) (envs : list cycle_env) (st : state) : run :=
  match envs with
  | [] => Running st []
  | env :: rest =>
      match (update_charge_amp_by_solaredge_data cfg env ;;
             time_sleep (update_freq cfg))%cycle st with
      | (Ok _, st', out) => emitted out (service cfg rest st')
      | (Raise e, st', out) => Terminated e st' out
      end
  end.

(** ** Vocabulary of the statements *)

(** The three readings of a cycle succeed, with production [p],
    consumption [c] and a charger usage of [u] kWh over the last minute. *)
Definition readings (cfg : config) (env : cycle_env) (p c u : Py.float) : Prop :=
  exists ov dict,
    solaredge_get_site_power_flow (SOLAREDGE_SITE cfg) (requests_get env) = Ok ov
    /\ PV_currentPower ov = Ok p
    /\ LOAD_currentPower ov = Ok c
    /\ get_device_list_usage env = Ok dict
    /\ vue_calc_usage_recursive dict = u.

(** The buffer as a list: empty before the first call. *)
Definition contents (buf : option (list Py.float)) : list Py.float :=
  match buf with None => [] | Some l => l end.

(** The [n] most recent values of a sequence, in arrival order. *)
Definition most_recent {A} (n : nat) (l : list A) : list A :=
  skipn (List.length l - n) l.

(** Successive calls of [sliding_average] on the values of [nums], oldest
    first, with the same window size: the results of the calls and the
    buffer left behind. *)
Fixpoint observe (list_size : Z) (buf : option (list Py.float)) (nums : list Py.float)
  : list (result Py.float) * option (list Py.float) :=
  match nums with
  | [] => ([], buf)
  | num :: rest =>
      let '(r, buf1) := sliding_average buf num list_size in
      let '(rs, buf2) := observe list_size buf1 rest in
      (r :: rs, buf2)
  end.

(** The arithmetic mean of a non-empty list, as line 192 computes it. *)
Definition mean (l : list Py.float) : Py.float :=
  Py.div (Py.sum l) (Py.of_int (Py.len l)).

(** The same cycle environment with another rate held by the back end. *)
Definition with_backend_rate (rate : Z) (env : cycle_env) : cycle_env :=
  {| requests_get := requests_get env;
     get_device_list_usage := get_device_list_usage env;
     update_charger_reply := update_charger_reply env;
     backend_charging_rate := rate |}.

(** The ways through a cycle, by what it returns, the state it leaves and
    what it emits. *)
Inductive cycle_path (env : cycle_env) (st : state)
  : result unit * state * list event -> Prop :=
| path_given_up :
    cycle_path env st (Ok tt, st, [PrintSolarEdgeError])
| path_read_raises e :
    cycle_path env st (Raise e, st, [])
| path_number_raises e buf :
    cycle_path env st
      (Raise e, {| values := buf; charging_rate := charging_rate st |}, [])
| path_no_change buf :
    cycle_path env st
      (Ok tt, {| values := buf; charging_rate := charging_rate st |},
       [PrintNoChange (charging_rate st)])
| path_write_raises e buf final :
    final <> charging_rate st ->
    update_charger_reply env = Raise e ->
    cycle_path env st
      (Raise e, {| values := buf; charging_rate := final |},
       [UpdateCharger final])
| path_write_returns buf final now :
    final <> charging_rate st ->
    update_charger_reply env = Ok now ->
    cycle_path env st
      (Ok tt, {| values := buf; charging_rate := now |},
       [UpdateCharger final; PrintAmpChanged (charging_rate st) now]).

(** ** Concrete configurations and inputs used below *)

Definition min_amps_50 : args :=
  {| arg_freq := None; arg_smooth := None; arg_min_amps := Some 50;
     arg_max_amps := None; arg_offset_amps := None |}.

Definition max_amps_3 : args :=
  {| arg_freq := None; arg_smooth := None; arg_min_amps := None;
     arg_max_amps := Some 3; arg_offset_amps := None |}.

Definition offset_minus_3 : args :=
  {| arg_freq := None; arg_smooth := None; arg_min_amps := None;
     arg_max_amps := None; arg_offset_amps := Some (-3) |}.

Definition default_config : config := configure (Some "1234567"%string) no_args.

(** A good answer of the SolarEdge server. *)
Definition power_flow (pv load : Py.float) : result response :=
  Ok {| status_code := 200;
        json := Ok {| PV_currentPower := Ok pv; LOAD_currentPower := Ok load |} |}.

(** The charger alone on its device, with [kwh] used over the last minute. *)
Definition charger_usage (kwh : Py.float) : list device :=
  [Device [Channel (Some kwh) []]].

(** Production 5.0 kW, consumption 2.0 kW, the charger used 0.025 kWh over
    the last minute (1.5 kW); the back end accepts a write of 18 A. *)
Definition scenario_A : cycle_env :=
  {| requests_get := power_flow (Py.of_int 5) (Py.of_int 2);
     get_device_list_usage := Ok (charger_usage (Py.ratio 25 1000));
     update_charger_reply := Ok 18;
     backend_charging_rate := 18 |}.

Definition at_18_amps : state := {| values := None; charging_rate := 18 |}.

(** Scenario A, but the usage read of the charger raises. *)
Definition usage_read_fails : cycle_env :=
  {| requests_get := power_flow (Py.of_int 5) (Py.of_int 2);
     get_device_list_usage := Raise VueError;
     update_charger_reply := Ok 18;
     backend_charging_rate := 6 |}.

(** Scenario A, but the back end refuses the write. *)
Definition write_fails : cycle_env :=
  {| requests_get := power_flow (Py.of_int 5) (Py.of_int 2);
     get_device_list_usage := Ok (charger_usage (Py.ratio 25 1000));
     update_charger_reply := Raise VueError;
     backend_charging_rate := 6 |}.

(** Scenario A, but the SolarEdge server answers 503. *)
Definition solaredge_down : cycle_env :=
  {| requests_get := Ok {| status_code := 503; json := Raise JSONDecodeError |};
     get_device_list_usage := Ok (charger_usage (Py.ratio 25 1000));
     update_charger_reply := Ok 18;
     backend_charging_rate := 6 |}.

Definition at_6_amps : state := {| values := None; charging_rate := 6 |}.

(** No production, 1 kW of consumption, an idle charger, while the back end
    holds [rate] for the charger. *)
Definition no_sun (rate : Z) : cycle_env :=
  {| requests_get := power_flow (Py.of_int 0) (Py.of_int 1);
     get_device_list_usage := Ok (charger_usage (Py.of_int 0));
     update_charger_reply := Ok 6;
     backend_charging_rate := rate |}.

(** Scenario A, with a back end that accepts a write of 50 A. *)
Definition accepts_50 : cycle_env :=
  {| requests_get := power_flow (Py.of_int 5) (Py.of_int 2);
     get_device_list_usage := Ok (charger_usage (Py.ratio 25 1000));
     update_charger_reply := Ok 50;
     backend_charging_rate := 6 |}.

(** An account with a meter and a charger set to 6 A. *)
Definition meter_and_charger : list vue_device :=
  [ {| ev_charger := None |}; {| ev_charger := Some 6 |} ].

(** ** The command line (lines 35-82) *)

From Stdlib Require Import Ascii.

(** A value of the dictionary of options: the text after [=], or [True]
    for an option given without [=]. *)
Inductive value : Type :=
| VTrue
| VStr (s : string).

(** [s.lstrip('-')] *)
Fixpoint lstrip_dashes (s : string) : string :=
  match s with
  | String a s' => if Ascii.eqb a "-"%char then lstrip_dashes s' else s
  | EmptyString => EmptyString
  end.

(** ['=' in s], and [s.split('=', 1)] when it is: the text before the
    first [=] and the text after it. *)
Fixpoint split_eq (s : string) : option (string * string) :=
  match s with
  | EmptyString => None
  | String a s' =>
      if Ascii.eqb a "="%char then Some (EmptyString, s')
      else match split_eq s' with
           | Some (key, v) => Some (String a key, v)
           | None => None
           end
  end.

(** A Python dictionary with string keys, in insertion order:
    [d[k] = v], [d[k]] and [k in d]. *)
Fixpoint dict_set (k : string) (v : value) (d : list (string * value))
  : list (string * value) :=
  match d with
  | [] => [(k, v)]
  | (k', v') :: d' =>
      if String.eqb k' k then (k', v) :: d' else (k', v') :: dict_set k v d'
  end.

Fixpoint dict_get (k : string) (d : list (string * value)) : option value :=
  match d with
  | [] => None
  | (k', v') :: d' => if String.eqb k' k then Some v' else dict_get k d'
  end.

Definition dict_in (k : string) (d : list (string * value)) : bool :=
  match dict_get k d with Some _ => true | None => false end.

(** The body of the loop of lines 37-43, for one argument. *)
Definition parse_arg (args_dict : list (string * value)) (arg : string)
  : list (string * value) :=
  let keyval := lstrip_dashes arg in
  match split_eq keyval with
  | Some (key, v) => dict_set key (VStr v) args_dict
  | None => dict_set keyval VTrue args_dict
  end.

(** [argv] is [sys.argv[1:]]. *)
Definition parse_args (argv : list string) : list (string * value) :=
  fold_left parse_arg argv [].

(** How the module-level code of lines 54-82 ends: [exit(0)] after the
    usage text, an exception, or the settings. *)
Inductive start_exn : Type :=
| IntError (e : exn)     (* raised by [int(...)] on the text of an option *)
| AttributeError.        (* [True.isnumeric()] *)

Inductive start (A : Type) : Type :=
| Exit0
| StartRaises (e : start_exn)
| Started (a : A).

Arguments Exit0 {A}.
Arguments StartRaises {A} e.
Arguments Started {A} a.

Section CommandLine.

(** [int(s)] on a string and the test of line 82 on a string are taken as
    they are: the text of a number in, the number or an exception out. *)
Variable int_of_str : string -> result Z.
Variable verbose_of_str : string -> result bool.

(** [int(v)]; [int(True)] is 1. *)
Definition int_of_value (v : value) : result Z :=
  match v with
  | VTrue => Ok 1
  | VStr s => int_of_str s
  end.

(** [if k in args: x = int(args[k])] *)
Definition int_option (k : string) (args_dict : list (string * value))
  : start (option Z) :=
  match dict_get k args_dict with
  | None => Started None
  | Some v =>
      match int_of_value v with
      | Ok n => Started (Some n)
      | Raise e => StartRaises (IntError e)
      end
  end.

(** Lines 80-82. *)
Definition verbose_option (args_dict : list (string * value)) : start bool :=
  match dict_get "verbose"%string args_dict with
  | None => Started false
  | Some VTrue => StartRaises AttributeError
  | Some (VStr s) =>
      match verbose_of_str s with
      | Ok b => Started b
      | Raise e => StartRaises (IntError e)
      end
  end.

Definition start_bind {A B} (m : start A) (k : A -> start B) : start B :=
  match m with
  | Exit0 => Exit0
  | StartRaises e => StartRaises e
  | Started a => k a
  end.

(** Lines 54-82: the settings of a start with the arguments [argv]. *)
Definition settings (site : option string) (argv : list string) : start config :=
  let args_dict := parse_args argv in
  if dict_in "help"%string args_dict || dict_in "h"%string args_dict
     || dict_in "?"%string args_dict
  then Exit0
  else
    start_bind (int_option "freq"%string args_dict) (fun freq =>
    start_bind (int_option "smooth"%string args_dict) (fun smooth =>
    start_bind (int_option "min_amps"%string args_dict) (fun min_amps =>
    start_bind (int_option "max_amps"%string args_dict) (fun max_amps =>
    start_bind (int_option "offset_amps"%string args_dict) (fun offset_amps =>
    start_bind (verbose_option args_dict) (fun _ =>
    Started
      (configure site
         {| arg_freq := freq; arg_smooth := smooth; arg_min_amps := min_amps;
            arg_max_amps := max_amps; arg_offset_amps := offset_amps |}))))))).

End CommandLine.

(** The key an argument sets and the value it gives to it. *)
Definition key_of (arg : string) : string :=
  match split_eq (lstrip_dashes arg) with
  | Some (key, _) => key
  | None => lstrip_dashes arg
  end.

Definition value_of (arg : string) : value :=
  match split_eq (lstrip_dashes arg) with
  | Some (_, v) => VStr v
  | None => VTrue
  end.

(** [n] dashes. *)
Fixpoint dashes (n : nat) : string :=
  match n with
  | O => EmptyString
  | S n' => String "-"%char (dashes n')
  end.

(** What a run has emitted, and the state it has reached. *)
Definition output (r : run) : list event :=
  match r with Running _ out | Terminated _ _ out => out end.

Definition reached (r : run) : state :=
  match r with Running st _ | Terminated _ st _ => st end.


(** The numeric usages of the channels of a usage dictionary, in the order
    the loops visit them. *)
Definition channel_usages (d : device) : list Py.float :=
  match d with
  | Device channels =>
      flat_map (fun c => match c with
                         | Channel (Some x) _ => [x]
                         | Channel None _ => []
                         end) channels
  end.

(** No channel of the device has nested devices. *)
Definition flat (d : device) : Prop :=
  match d with
  | Device channels =>
      Forall (fun c => match c with Channel _ nested => nested = [] end) channels
  end.


Definition smooth_minus_2 : args :=
  {| arg_freq := None; arg_smooth := Some (-2); arg_min_amps := None;
     arg_max_amps := None; arg_offset_amps := None |}.

Definition args_of_min_max (lo hi : Z) : args :=
  {| arg_freq := None; arg_smooth := None; arg_min_amps := Some lo;
     arg_max_amps := Some hi; arg_offset_amps := None |}.

(** Scenario A, but the answer of the SolarEdge server has no LOAD entry. *)
Definition no_load_reading : cycle_env :=
  {| requests_get :=
       Ok {| status_code := 200;
             json := Ok {| PV_currentPower := Ok (Py.of_int 5);
                           LOAD_currentPower := Raise KeyError |} |};
     get_device_list_usage := Ok (charger_usage (Py.ratio 25 1000));
     update_charger_reply := Ok 18;
     backend_charging_rate := 6 |}.

(** Scenario A, but the production reading is NaN. *)
Definition nan_production : cycle_env :=
  {| requests_get := power_flow S754_nan (Py.of_int 2);
     get_device_list_usage := Ok (charger_usage (Py.ratio 25 1000));
     update_charger_reply := Ok 18;
     backend_charging_rate := 6 |}.

(** [int] on a plain, non-empty string of ASCII digits, and a line-82 test
    that never raises: what the examples below run the start with. *)
Fixpoint digits_value (s : string) (acc : Z) : option Z :=
  match s with
  | EmptyString => Some acc
  | String a s' =>
      let n := Z.of_nat (nat_of_ascii a) in
      if (48 <=? n) && (n <=? 57) then digits_value s' (10 * acc + (n - 48))
      else None
  end.

Definition int_of_digits (s : string) : result Z :=
  match s with
  | EmptyString => Raise ValueError
  | _ => match digits_value s 0 with
         | Some n => Ok n
         | None => Raise ValueError
         end
  end.

Definition quiet (s : string) : result bool := Ok false.

(** Closes a goal whose hypothesis places an event in an output that does
    not hold it. *)
Ltac no_such_event H :=
  repeat (destruct H as [H|H]; [try discriminate H|]); try contradiction.

(** ** Proof automation *)

(** Closes a goal about what a cycle emitted, given membership facts. *)
Ltac in_output :=
  repeat match goal with
         | H : In _ (_ :: _) |- _ => destruct H as [H|H]
         | H : In _ [] |- _ => destruct H
         | H : _ = _ :> event |- _ =>
             first [discriminate H | (injection H; clear H; intros; subst)]
         | H : exists _, _ |- _ => let H' := fresh in destruct H as [? H']
         end.

(** * Properties *)

(** ** The clamp and the hard limits *)

Lemma clamp_lower (a lo hi : Z) : lo <= clamp a lo hi.
Proof. unfold clamp. lia. Qed.

Lemma clamp_upper (a lo hi : Z) : clamp a lo hi <= Z.max lo hi.
Proof. unfold clamp. lia. Qed.

Lemma configure_min_amps (site : option string) (a : args) :
  MIN_AMPS <= min_amps (configure site a).
Proof. simpl. destruct (arg_min_amps a); lia. Qed.

Lemma configure_max_amps (site : option string) (a : args) :
  max_amps (configure site a) <= MAX_AMPS.
Proof. simpl. destruct (arg_max_amps a); lia. Qed.

(** The floor of 6 A holds for every configuration. *)
Lemma final_amps_floor (site : option string) (a : args) (raw : Z) :
  MIN_AMPS <= final_amps (configure site a) raw.
Proof.
  unfold final_amps. cbv zeta.
  pose proof (configure_min_amps site a).
  pose proof (clamp_lower (raw + offset_amps (configure site a))
                (min_amps (configure site a)) (max_amps (configure site a))).
  lia.
Qed.

(** The ceiling of 40 A holds as long as the configured minimum is not
    above it. *)
Lemma final_amps_ceiling (site : option string) (a : args) (raw : Z) :
  min_amps (configure site a) <= MAX_AMPS ->
  final_amps (configure site a) raw <= MAX_AMPS.
Proof.
  intros H. unfold final_amps. cbv zeta.
  pose proof (configure_max_amps site a).
  pose proof (clamp_upper (raw + offset_amps (configure site a))
                (min_amps (configure site a)) (max_amps (configure site a))).
  lia.
Qed.

(** C1. The claim is that no configuration lets the commanded current leave
    6..40 A.  Started with [min_amps=50], the program keeps 50 as its lower
    bound (only the floor of 6 is applied to it), and the clamp then answers
    50 A whatever the smoothed power converts to: above the ceiling of
    40 A. *)
Theorem min_amps_50_commands_50 (site : option string) (raw : Z) :
  final_amps (configure site min_amps_50) raw = 50
  /\ MAX_AMPS < final_amps (configure site min_amps_50) raw.
Proof.
  unfold final_amps, clamp. simpl. unfold MIN_AMPS, MAX_AMPS. lia.
Qed.

Example min_amps_50_writes_50 :
  service (configure (Some "1234567"%string) min_amps_50) [accepts_50] at_6_amps
  = Running {| values := Some [Py.ratio 450 100]; charging_rate := 50 |}
      [UpdateCharger 50; PrintAmpChanged 6 50; Sleep 60].
Proof. vm_compute. reflexivity. Qed.

(** C6, as stated, fails when the bounds are inverted: at 10 A with bounds
    6 and 3 (the bounds of a start with [max_amps=3]) the current is above
    the upper bound, and the answer is 6 A, not 3 A. *)
Lemma clamp_inverted_bounds :
  ~ ((10 < 6 -> clamp 10 6 3 = 6)
     /\ (10 > 3 -> clamp 10 6 3 = 3)
     /\ (6 <= 10 <= 3 -> clamp 10 6 3 = 10)).
Proof. intros (_ & H & _). specialize (H eq_refl). vm_compute in H. congruence. Qed.

Example max_amps_3_inverts_bounds :
  min_amps (configure None max_amps_3) = 6
  /\ max_amps (configure None max_amps_3) = 3.
Proof. split; reflexivity. Qed.

(** C6 (amended). With the bounds in order: below the lower bound the
    clamp answers the lower bound, above the upper bound it answers the
    upper bound, and in between it is the identity. *)
Theorem clamp_nearest_bound (a lo hi : Z) :
  lo <= hi ->
  (a < lo -> clamp a lo hi = lo)
  /\ (hi < a -> clamp a lo hi = hi)
  /\ (lo <= a <= hi -> clamp a lo hi = a).
Proof.
  intros H. unfold clamp. repeat split; intros Ha.
  - rewrite Z.max_r; [reflexivity|].
    apply Z.le_trans with a; [apply Z.le_min_l|lia].
  - rewrite Z.min_r by lia. apply Z.max_l. exact H.
  - rewrite Z.min_l by lia. apply Z.max_l. lia.
Qed.

Lemma clamp_nearest_bound_witness :
  6 <= 40
  /\ ((3 < 6 -> clamp 3 6 40 = 6)
      /\ (40 < 3 -> clamp 3 6 40 = 40)
      /\ (6 <= 3 <= 40 -> clamp 3 6 40 = 3)).
Proof. split; [lia | apply (clamp_nearest_bound 3 6 40); lia]. Defined.

(** The same for the target of a cycle, whose bounds are those of the
    configuration and whose current is the converted power plus the
    offset. *)
Lemma final_amps_nearest_bound (cfg : config) (raw : Z) :
  min_amps cfg <= max_amps cfg ->
  let amps := raw + offset_amps cfg in
  (amps < min_amps cfg -> final_amps cfg raw = min_amps cfg)
  /\ (max_amps cfg < amps -> final_amps cfg raw = max_amps cfg)
  /\ (min_amps cfg <= amps <= max_amps cfg -> final_amps cfg raw = amps).
Proof. intros H amps. subst amps. unfold final_amps, clamp. cbv zeta. lia. Qed.

(** ** The cycle, path by path *)

Lemma cycle_solaredge_raises cfg env st e :
  solaredge_get_site_power_flow (SOLAREDGE_SITE cfg) (requests_get env) = Raise e ->
  update_charge_amp_by_solaredge_data cfg env st = (Ok tt, st, [PrintSolarEdgeError]).
Proof.
  intros H. unfold update_charge_amp_by_solaredge_data. rewrite H. reflexivity.
Qed.

Lemma cycle_usage_raises cfg env st ov p c e :
  solaredge_get_site_power_flow (SOLAREDGE_SITE cfg) (requests_get env) = Ok ov ->
  PV_currentPower ov = Ok p ->
  LOAD_currentPower ov = Ok c ->
  get_device_list_usage env = Raise e ->
  update_charge_amp_by_solaredge_data cfg env st = (Raise e, st, []).
Proof.
  intros H1 H2 H3 H4. unfold update_charge_amp_by_solaredge_data.
  rewrite H1. unfold bind, lift. rewrite H2, H3, H4. reflexivity.
Qed.

(** Once the readings are in, the average is computed and converted, the
    cycle is the decision and, when the rate has to change, the write. *)
Lemma cycle_decides cfg env st p c u avg buf raw :
  readings cfg env p c u ->
  sliding_average (values st) (available_for_charger_kw p c u) (smooth cfg)
    = (Ok avg, buf) ->
  amps_from_kw (Py.round2 avg) = Ok raw ->
  update_charge_amp_by_solaredge_data cfg env st =
    let final := final_amps cfg raw in
    let pre_change := charging_rate st in
    if changed pre_change final then
      match update_charger_reply env with
      | Ok now =>
          (Ok tt, {| values := buf; charging_rate := now |},
           [UpdateCharger final; PrintAmpChanged pre_change now])
      | Raise e =>
          (Raise e, {| values := buf; charging_rate := final |},
           [UpdateCharger final])
      end
    else
      (Ok tt, {| values := buf; charging_rate := pre_change |},
       [PrintNoChange pre_change]).
Proof.
  intros (ov & dict & H1 & H2 & H3 & H4 & H5) HS HA.
  unfold update_charge_amp_by_solaredge_data.
  rewrite H1. unfold bind at 1 2 3. unfold lift at 1 2 3. rewrite H2, H3, H4, H5.
  unfold bind at 1. unfold call_sliding_average. rewrite HS.
  cbv zeta. unfold bind at 1. unfold lift at 1. rewrite HA.
  unfold bind at 1. unfold get_charging_rate at 1. cbn [charging_rate].
  destruct (changed _ _); [|reflexivity].
  unfold update_charger, bind, set_charging_rate, get_charging_rate, emit, lift, ret.
  cbn [charging_rate values].
  destruct (update_charger_reply env); reflexivity.
Qed.

(** Whatever happens later in the cycle, what [sliding_average] leaves in
    the buffer for the fused reading is the buffer after the cycle. *)
Lemma cycle_feeds_filter cfg env st p c u :
  readings cfg env p c u ->
  values (snd (fst (update_charge_amp_by_solaredge_data cfg env st)))
  = snd (sliding_average (values st) (available_for_charger_kw p c u) (smooth cfg)).
Proof.
  intros HR.
  destruct (sliding_average (values st) (available_for_charger_kw p c u) (smooth cfg))
    as [[avg|e] buf] eqn:HS.
  - destruct (amps_from_kw (Py.round2 avg)) as [raw|e] eqn:HA.
    + rewrite (cycle_decides cfg env st p c u avg buf raw HR HS HA). cbv zeta.
      destruct (changed _ _); [destruct (update_charger_reply env)|]; reflexivity.
    + destruct HR as (ov & dict & H1 & H2 & H3 & H4 & H5).
      unfold update_charge_amp_by_solaredge_data.
      rewrite H1. unfold bind at 1 2 3. unfold lift at 1 2 3. rewrite H2, H3, H4, H5.
      unfold bind at 1. unfold call_sliding_average. rewrite HS.
      cbv zeta. unfold bind at 1. unfold lift at 1. rewrite HA. reflexivity.
  - destruct HR as (ov & dict & H1 & H2 & H3 & H4 & H5).
    unfold update_charge_amp_by_solaredge_data.
    rewrite H1. unfold bind at 1 2 3. unfold lift at 1 2 3. rewrite H2, H3, H4, H5.
    unfold bind at 1. unfold call_sliding_average. rewrite HS. reflexivity.
Qed.

Lemma cycle_takes_a_path cfg env st :
  cycle_path env st (update_charge_amp_by_solaredge_data cfg env st).
Proof.
  unfold update_charge_amp_by_solaredge_data.
  destruct (solaredge_get_site_power_flow (SOLAREDGE_SITE cfg) (requests_get env))
    as [ov|?]; [|apply path_given_up].
  unfold bind at 1 2 3. unfold lift at 1 2 3.
  destruct (PV_currentPower ov) as [prod_kw|?]; [|apply path_read_raises].
  destruct (LOAD_currentPower ov) as [cons_kw|?]; [|apply path_read_raises].
  destruct (get_device_list_usage env) as [dict|?]; [|apply path_read_raises].
  unfold bind at 1. unfold call_sliding_average.
  destruct (sliding_average (values st) _ (smooth cfg)) as [[avg|?] buf];
    [|apply path_number_raises].
  cbv zeta. unfold bind at 1. unfold lift at 1.
  destruct (amps_from_kw (Py.round2 avg)) as [raw|?];
    [|apply path_number_raises].
  unfold bind at 1. unfold get_charging_rate at 1. cbn [charging_rate].
  set (final := final_amps cfg raw).
  unfold changed. destruct (Z.eqb_spec (charging_rate st) final) as [E|E]; cbn [negb].
  - apply path_no_change.
  - unfold update_charger, bind, set_charging_rate, get_charging_rate,
      emit, lift, ret. cbn [charging_rate values].
    destruct (update_charger_reply env) as [now|e] eqn:R; cbn [app].
    + apply path_write_returns; congruence.
    + apply path_write_raises; congruence.
Qed.

(** ** The decision *)

(** C9. Deciding again on the same smoothed power, with the charger's rate
    now equal to the first answer, asks for no change; and a cycle whose
    target equals the recorded rate prints "No change" and writes nothing:
    no [UpdateCharger] is issued and the recorded rate stays. *)
Theorem no_write_when_target_is_stable :
  (forall cfg raw,
      let a := final_amps cfg raw in
      changed a (final_amps cfg raw) = false)
  /\ (forall cfg env st p c u avg buf raw,
         readings cfg env p c u ->
         sliding_average (values st) (available_for_charger_kw p c u) (smooth cfg)
           = (Ok avg, buf) ->
         amps_from_kw (Py.round2 avg) = Ok raw ->
         final_amps cfg raw = charging_rate st ->
         update_charge_amp_by_solaredge_data cfg env st
           = (Ok tt, {| values := buf; charging_rate := charging_rate st |},
              [PrintNoChange (charging_rate st)])).
Proof.
  split.
  - intros cfg raw a. unfold changed. rewrite Z.eqb_refl. reflexivity.
  - intros cfg env st p c u avg buf raw HR HS HA HF.
    rewrite (cycle_decides cfg env st p c u avg buf raw HR HS HA). cbv zeta.
    rewrite HF. unfold changed. rewrite Z.eqb_refl. reflexivity.
Qed.

Lemma no_write_when_target_is_stable_witness :
  update_charge_amp_by_solaredge_data default_config scenario_A at_18_amps
  = (Ok tt, {| values := Some [Py.ratio 450 100]; charging_rate := 18 |},
     [PrintNoChange 18]).
Proof.
  refine (proj2 no_write_when_target_is_stable
            default_config scenario_A at_18_amps
            (Py.of_int 5) (Py.of_int 2) (Py.ratio 25 1000) (Py.ratio 450 100)
            (Some [Py.ratio 450 100]) 18 _ _ _ _).
  - exists {| PV_currentPower := Ok (Py.of_int 5);
              LOAD_currentPower := Ok (Py.of_int 2) |},
      (charger_usage (Py.ratio 25 1000)).
    repeat split; vm_compute; reflexivity.
  - vm_compute. reflexivity.
  - vm_compute. reflexivity.
  - reflexivity.
Defined.

(** ** Power to current *)

Section Conversion.

Local Open Scope Q_scope.

(** [int] is the floor of the exact value of a float that is not negative
    and the ceiling of the exact value of one that is. *)
Lemma int_exact (x : Py.float) (q : Q) :
  Py.exact x = Some q ->
  Py.int x = Ok (if Py.sign x then Qceiling q else Qfloor q).
Proof.
  destruct x as [s|s| |s m e]; cbn [Py.exact Py.int Py.sign]; try discriminate.
  - intros E. injection E as <-. destruct s; reflexivity.
  - intros E. injection E as <-.
    destruct (Z.leb_spec 0 e) as [He|He].
    + destruct s; rewrite ?Qceiling_Z, ?Qfloor_Z; f_equal; lia.
    + assert (P : Zpos (2 ^ Z.to_pos (- e)) = (2 ^ (- e))%Z).
      { rewrite Pos2Z.inj_pow, Z2Pos.id by lia. reflexivity. }
      destruct s; unfold Qceiling, Qfloor, Qopp; cbn [Qnum Qden Z.opp];
        rewrite P; reflexivity.
Qed.

Lemma exact_sign (x : Py.float) (q : Q) :
  Py.exact x = Some q ->
  if Py.sign x then q <= 0 else 0 <= q.
Proof.
  destruct x as [s|s| |s m e]; cbn [Py.exact Py.sign]; try discriminate.
  - intros E. injection E as <-. destruct s; apply Qle_refl.
  - intros E. injection E as <-.
    pose proof (Z.pow_nonneg 2 e) as P.
    destruct (Z.leb_spec 0 e) as [He|He]; destruct s; unfold Qle;
      cbn [Qnum Qden inject_Z]; nia.
Qed.

(** Rounding to a float keeps the sign. *)
Lemma binary_round_aux_sign (s : bool) (m e : Z) (l : location) :
  binary_round_aux Py.prec Py.emax s m e l = S754_nan
  \/ Py.sign (binary_round_aux Py.prec Py.emax s m e l) = s.
Proof.
  unfold binary_round_aux.
  destruct (shr_fexp Py.prec Py.emax m e l) as [mrs' e'].
  destruct (shr_fexp Py.prec Py.emax _ e' loc_Exact) as [mrs'' e''].
  destruct (shr_m mrs''); [right; reflexivity| |left; reflexivity].
  destruct (e'' <=? Py.emax - Py.prec)%Z; right; reflexivity.
Qed.

Lemma mul_positive_sign (x : Py.float) (m : positive) (e : Z) :
  Py.mul x (S754_finite false m e) = S754_nan
  \/ Py.sign (Py.mul x (S754_finite false m e)) = Py.sign x.
Proof.
  unfold Py.mul.
  destruct x as [s|s| |s mx ex]; cbn [SFmul Py.sign];
    rewrite ?xorb_false_r; auto using binary_round_aux_sign.
Qed.

Lemma div_positive_sign (x : Py.float) (m : positive) (e : Z) :
  Py.div x (S754_finite false m e) = S754_nan
  \/ Py.sign (Py.div x (S754_finite false m e)) = Py.sign x.
Proof.
  unfold Py.div.
  destruct x as [s|s| |s mx ex]; cbn [SFdiv Py.sign];
    rewrite ?xorb_false_r; auto.
  destruct (SFdiv_core_binary Py.prec Py.emax (Z.pos mx) ex (Z.pos m) e)
    as [[mz ez] lz].
  apply binary_round_aux_sign.
Qed.

Lemma amps_quotient_sign (average_kw : Py.float) (q : Q) :
  Py.exact (amps_quotient average_kw) = Some q ->
  Py.sign (amps_quotient average_kw) = Py.sign average_kw.
Proof.
  unfold amps_quotient.
  change (Py.of_int 1000) with (S754_finite false 8796093022208000 (-43)).
  change (Py.of_int 240) with (S754_finite false 8444249301319680 (-45)).
  intros E.
  destruct (div_positive_sign
              (Py.mul average_kw (S754_finite false 8796093022208000 (-43)))
              8444249301319680 (-45)) as [N|S].
  - rewrite N in E. discriminate E.
  - rewrite S.
    destruct (mul_positive_sign average_kw 8796093022208000 (-43)) as [N'|S'];
      [|exact S'].
    rewrite N' in E. discriminate E.
Qed.

End Conversion.

(** C7, as stated, fails below zero: at -0.5 kW the quotient is -2.08..,
    its floor is -3 and the program computes -2. *)
Lemma amps_from_kw_is_not_floor :
  Py.denotes (Py.ratio (-1) 2) (- (1 # 2))
  /\ amps_from_kw (Py.ratio (-1) 2) = Ok (-2)
  /\ Qfloor (- (1 # 2) * 1000 / 240) = -3
  /\ amps_from_kw (Py.ratio (-1) 2) <> Ok (Qfloor (- (1 # 2) * 1000 / 240)).
Proof. repeat split; vm_compute; congruence. Qed.

(** C7 (amended). The raw amperage is the computed quotient with its
    fractional part dropped: the floor of the quotient when the smoothed
    power is not negative, its ceiling when the power is negative; the
    quotient has the sign of the power. *)
Theorem amps_from_kw_truncates (average_kw : Py.float) (q : Q) :
  Py.exact (amps_quotient average_kw) = Some q ->
  amps_from_kw average_kw
  = Ok (if Py.sign average_kw then Qceiling q else Qfloor q)
  /\ (if Py.sign average_kw then q <= 0 else 0 <= q)%Q.
Proof.
  intros E. unfold amps_from_kw.
  rewrite <- (amps_quotient_sign average_kw q E).
  split; [apply int_exact | apply exact_sign]; exact E.
Qed.

Lemma amps_from_kw_truncates_witness :
  amps_from_kw (Py.ratio 450 100) = Ok 18
  /\ amps_from_kw (Py.ratio (-1) 2) = Ok (-2).
Proof.
  split.
  - refine (proj1 (amps_from_kw_truncates (Py.ratio 450 100)
                     (5277655813324800 # 281474976710656) _)).
    vm_compute. reflexivity.
  - refine (proj1 (amps_from_kw_truncates (Py.ratio (-1) 2)
                     (-4691249611844267 # 2251799813685248) _)).
    vm_compute. reflexivity.
Defined.

(** The quotient is the rounded one: 16.08 kW gives 66 A, although
    16080 / 240 is 67. *)
Example amps_from_kw_16_08 : amps_from_kw (Py.ratio 1608 100) = Ok 66.
Proof. vm_compute. reflexivity. Qed.

(** ** The smoothing window *)

Section Window.

Lemma most_recent_app {A} (n : nat) (l r : list A) :
  most_recent n (most_recent n l ++ r) = most_recent n (l ++ r).
Proof.
  unfold most_recent.
  rewrite !length_app, length_skipn, !skipn_app, skipn_skipn, length_skipn.
  f_equal; f_equal; lia.
Qed.

Lemma length_most_recent {A} (n : nat) (l : list A) :
  List.length (most_recent n l) = Nat.min (List.length l) n.
Proof. unfold most_recent. rewrite length_skipn. lia. Qed.

(** A window of at least one value keeps the value just appended. *)
Lemma most_recent_newest {A} (n : nat) (l : list A) (x : A) :
  (1 <= n)%nat ->
  exists older, most_recent n (l ++ [x]) = older ++ [x].
Proof.
  intros Hn. unfold most_recent. rewrite length_app, skipn_app. cbn [List.length].
  replace (List.length l + 1 - n - List.length l)%nat with 0%nat by lia.
  eexists. reflexivity.
Qed.

(** One call with a window of at least one value: the result is the mean
    of the new buffer, and the new buffer is the old one with the value
    appended, cut to its most recent [list_size] values. *)
Lemma sliding_average_window
  (buf : option (list Py.float)) (num : Py.float) (list_size : Z) :
  1 <= list_size ->
  sliding_average buf num list_size
  = (let l := most_recent (Z.to_nat list_size) (contents buf ++ [num]) in
     (Ok (mean l), Some l)).
Proof.
  intros HN. unfold sliding_average, contents, mean. cbv zeta.
  set (l := match buf with None => [] | Some l => l end ++ [num]).
  assert (Hlen : 1 <= Py.len l).
  { unfold Py.len, l. rewrite length_app. simpl. lia. }
  assert (Hcut : (if Py.len l >? list_size
                  then Py.slice_from (- list_size) l else l)
                 = most_recent (Z.to_nat list_size) l).
  { unfold most_recent, Py.slice_from. unfold Py.len in *.
    destruct (Z.gtb_spec (Z.of_nat (List.length l)) list_size) as [G|G].
    - destruct (Z.ltb_spec (- list_size) 0) as [L|L]; [|lia].
      f_equal. lia.
    - replace (List.length l - Z.to_nat list_size)%nat with 0%nat by lia.
      reflexivity. }
  rewrite Hcut. unfold Py.div_int.
  assert (Hpos : (Py.len (most_recent (Z.to_nat list_size) l) =? 0) = false).
  { apply Z.eqb_neq. unfold Py.len in *. rewrite length_most_recent. lia. }
  rewrite Hpos. reflexivity.
Qed.

Lemma observe_window (list_size : Z) (nums : list Py.float) :
  1 <= list_size ->
  forall buf,
    nums <> [] ->
    snd (observe list_size buf nums)
    = Some (most_recent (Z.to_nat list_size) (contents buf ++ nums)).
Proof.
  intros HN. induction nums as [|num rest IH]; intros buf Hne; [congruence|].
  cbn [observe]. rewrite (sliding_average_window buf num list_size HN). cbv zeta.
  destruct rest as [|num' rest'].
  - reflexivity.
  - specialize (IH (Some (most_recent (Z.to_nat list_size) (contents buf ++ [num])))).
    destruct (observe list_size _ (num' :: rest')) as [rs buf2].
    cbn [snd] in *. rewrite IH by congruence.
    cbn [contents]. rewrite most_recent_app, <- app_assoc. reflexivity.
Qed.

(** With a window size of 0 the slice [values[-0:]] is the whole list. *)
Lemma sliding_average_size_0 (buf : option (list Py.float)) (num : Py.float) :
  sliding_average buf num 0
  = (Ok (mean (contents buf ++ [num])), Some (contents buf ++ [num])).
Proof.
  unfold sliding_average, contents, mean. cbv zeta.
  set (l := match buf with None => [] | Some l => l end ++ [num]).
  assert (Hlen : 1 <= Py.len l).
  { unfold Py.len, l. rewrite length_app. simpl. lia. }
  destruct (Z.gtb_spec (Py.len l) 0) as [G|G]; [|lia].
  unfold Py.slice_from. cbn [Z.opp Z.ltb Z.compare].
  replace (Z.to_nat (Z.min 0 (Py.len l))) with 0%nat by lia.
  cbn [skipn]. unfold Py.div_int.
  destruct (Z.eqb_spec (Py.len l) 0) as [E|E]; [lia|]. reflexivity.
Qed.

Lemma observe_size_0 (nums : list Py.float) :
  forall buf,
    observe 0 buf nums
    = (map (fun k => Ok (mean (contents buf ++ firstn k nums)))
         (seq 1 (List.length nums)),
       match nums with [] => buf | _ :: _ => Some (contents buf ++ nums) end).
Proof.
  induction nums as [|num rest IH]; intros buf; [reflexivity|].
  cbn [observe]. rewrite sliding_average_size_0, IH.
  cbn [List.length].
  rewrite <- cons_seq, <- (seq_shift (List.length rest) 1), map_cons, map_map.
  f_equal.
  - f_equal. apply map_ext. intros k. cbn [contents firstn].
    rewrite <- app_assoc. reflexivity.
  - cbn [contents]. destruct rest; [reflexivity|].
    rewrite <- app_assoc. reflexivity.
Qed.

End Window.

(** C8. With a window size of at least 1, after every call the buffer is
    the sequence of values seen so far cut to its most recent [list_size]
    values, in arrival order; its length is the smaller of the number of
    values and [list_size]; and a value arriving at a full buffer evicts
    the oldest one. *)
Theorem window_is_bounded_fifo (list_size : Z) :
  1 <= list_size ->
  (forall buf nums,
      nums <> [] ->
      exists l,
        snd (observe list_size buf nums) = Some l
        /\ l = most_recent (Z.to_nat list_size) (contents buf ++ nums)
        /\ Py.len l = Z.min (Py.len (contents buf ++ nums)) list_size
        /\ Py.len l <= list_size)
  /\ (forall oldest rest num,
         Py.len (oldest :: rest) = list_size ->
         snd (sliding_average (Some (oldest :: rest)) num list_size)
         = Some (rest ++ [num])).
Proof.
  intros HN. split.
  - intros buf nums Hne. eexists. split; [apply observe_window; assumption|].
    split; [reflexivity|].
    unfold Py.len. rewrite length_most_recent. lia.
  - intros oldest rest num Hfull.
    rewrite (sliding_average_window (Some (oldest :: rest)) num list_size HN).
    cbv zeta. cbn [snd contents]. f_equal.
    unfold most_recent, Py.len in *. rewrite length_app. cbn [List.length] in *.
    replace (S (List.length rest) + 1 - Z.to_nat list_size)%nat with 1%nat by lia.
    reflexivity.
Qed.

Lemma window_is_bounded_fifo_witness :
  1 <= 3
  /\ snd (observe 3 None (map Py.of_int [10; 12; 11; 8]))
     = Some (map Py.of_int [12; 11; 8])
  /\ snd (sliding_average (Some (map Py.of_int [10; 12; 11])) (Py.of_int 8) 3)
     = Some (map Py.of_int [12; 11; 8]).
Proof.
  assert (H : 1 <= 3) by lia.
  split; [exact H|]. split.
  - destruct (proj1 (window_is_bounded_fifo 3 H) None (map Py.of_int [10; 12; 11; 8]))
      as (l & E & L & _); [discriminate|].
    rewrite E, L. reflexivity.
  - apply (proj2 (window_is_bounded_fifo 3 H)
             (Py.of_int 10) (map Py.of_int [12; 11]) (Py.of_int 8)).
    reflexivity.
Defined.

(** Scenario B of the specification: the window [10, 12, 11] of size 3
    takes 8, becomes [12, 11, 8] and averages to 31/3. *)
Example window_scenario_B :
  sliding_average (Some (map Py.of_int [10; 12; 11])) (Py.of_int 8) 3
  = (Ok (Py.ratio 31 3), Some (map Py.of_int [12; 11; 8])).
Proof. vm_compute. reflexivity. Qed.

(** C10. With a window size of 0 the slice keeps the whole list and nothing
    is ever dropped: after the calls the buffer holds every value
    observed, in order, and the k-th call returns the mean of the first k
    values. *)
Theorem window_size_0_is_unbounded (nums : list Py.float) :
  Py.slice_from (- 0) nums = nums
  /\ contents (snd (observe 0 None nums)) = nums
  /\ Py.len (contents (snd (observe 0 None nums))) = Py.len nums
  /\ fst (observe 0 None nums)
     = map (fun k => Ok (mean (firstn k nums))) (seq 1 (List.length nums)).
Proof.
  split.
  { unfold Py.slice_from. cbn [Z.opp Z.ltb Z.compare].
    replace (Z.to_nat (Z.min 0 (Py.len nums))) with 0%nat
      by (unfold Py.len; lia).
    reflexivity. }
  rewrite observe_size_0. cbn [fst snd contents app].
  assert (E : contents match nums with [] => None | _ :: _ => Some nums end = nums)
    by (destruct nums; reflexivity).
  rewrite E. repeat split.
Qed.

Example window_size_0_four_values :
  observe 0 None (map Py.of_int [10; 12; 11; 8])
  = ([Ok (Py.of_int 10); Ok (Py.of_int 11); Ok (Py.of_int 11);
      Ok (Py.ratio 41 4)],
     Some (map Py.of_int [10; 12; 11; 8])).
Proof. vm_compute. reflexivity. Qed.

(** ** The fused reading *)

(** C5, as stated, fails: with a production of 2.0078125 kW, a consumption
    of 1 kW and an idle charger, p - c + d is 1.0078125 and the fused
    reading is 1.01. *)
Lemma fused_reading_is_rounded :
  Py.denotes (Py.ratio 257 128) (257 # 128)
  /\ Py.denotes (Py.of_int 1) 1
  /\ Py.denotes (Py.mul (Py.of_int 0) (Py.of_int 60)) 0
  /\ Py.denotes
       (available_for_charger_kw (Py.ratio 257 128) (Py.of_int 1) (Py.of_int 0))
       (4548635623644201 # 4503599627370496)
  /\ ~ ((4548635623644201 # 4503599627370496) == (257 # 128) - 1 + 0)%Q
  /\ available_for_charger_kw (Py.ratio 257 128) (Py.of_int 1) (Py.of_int 0)
     = Py.ratio 101 100
  /\ Py.add (Py.sub (Py.ratio 257 128) (Py.of_int 1))
       (Py.mul (Py.of_int 0) (Py.of_int 60))
     = Py.ratio 129 128
  /\ Py.ratio 101 100 <> Py.ratio 129 128.
Proof. repeat split; vm_compute; congruence. Qed.

(** C5 (amended). The reading handed to [sliding_average] is
    round(round(p - c, 2) + round(d, 2), 2), where d is 60 times the
    charger's usage over the last minute: p - c and d are rounded to two
    decimals before they are added.  It is not clamped: with a window of at
    least one value it is the newest entry of the buffer after the cycle,
    and it may be negative. *)
Theorem fused_reading_two_decimals :
  (forall cfg env st p c u,
      readings cfg env p c u ->
      let d := Py.mul u (Py.of_int 60) in
      let fused := Py.round2 (Py.add (Py.round2 (Py.sub p c)) (Py.round2 d)) in
      values (snd (fst (update_charge_amp_by_solaredge_data cfg env st)))
      = snd (sliding_average (values st) fused (smooth cfg))
      /\ (1 <= smooth cfg ->
          exists older,
            values (snd (fst (update_charge_amp_by_solaredge_data cfg env st)))
            = Some (older ++ [fused])))
  /\ Py.denotes
       (available_for_charger_kw (Py.of_int 1) (Py.of_int 3) (Py.of_int 0))
       (- (2)).
Proof.
  split; [|vm_compute; reflexivity].
  intros cfg env st p c u HR d fused.
  pose proof (cycle_feeds_filter cfg env st p c u HR) as E.
  change (available_for_charger_kw p c u) with fused in E.
  split; [exact E|]. intros HN. rewrite E.
  rewrite (sliding_average_window (values st) fused (smooth cfg) HN).
  cbv zeta. cbn [snd].
  destruct (most_recent_newest (Z.to_nat (smooth cfg)) (contents (values st)) fused)
    as [older Ho]; [lia|].
  exists older. rewrite Ho. reflexivity.
Qed.

Lemma fused_reading_two_decimals_witness :
  values (snd (fst (update_charge_amp_by_solaredge_data
                      default_config scenario_A at_18_amps)))
  = Some [Py.ratio 450 100].
Proof.
  refine (proj1 (proj1 fused_reading_two_decimals
                   default_config scenario_A at_18_amps
                   (Py.of_int 5) (Py.of_int 2) (Py.ratio 25 1000) _)).
  exists {| PV_currentPower := Ok (Py.of_int 5);
            LOAD_currentPower := Ok (Py.of_int 2) |},
    (charger_usage (Py.ratio 25 1000)).
  repeat split; vm_compute; reflexivity.
Defined.

(** ** The service loop *)


Lemma service_cycle_raises cfg env rest st st' out e :
  update_charge_amp_by_solaredge_data cfg env st = (Raise e, st', out) ->
  service cfg (env :: rest) st = Terminated e st' out.
Proof. intros H. cbn [service]. unfold bind. rewrite H. reflexivity. Qed.


(** C2. The claim is that a failure of either read gives up the cycle and
    lets the loop go on.  The usage read of the charger is not guarded:
    when it raises, the window is untouched and nothing is written, but
    the exception leaves the cycle and the loop, and the cycles that were
    to follow never run. *)
Theorem usage_read_failure_stops_the_loop cfg env rest st ov p c e :
  solaredge_get_site_power_flow (SOLAREDGE_SITE cfg) (requests_get env) = Ok ov ->
  PV_currentPower ov = Ok p ->
  LOAD_currentPower ov = Ok c ->
  get_device_list_usage env = Raise e ->
  service cfg (env :: rest) st = Terminated e st [].
Proof.
  intros H1 H2 H3 H4. apply service_cycle_raises.
  apply (cycle_usage_raises cfg env st ov p c e H1 H2 H3 H4).
Qed.

Lemma usage_read_failure_stops_the_loop_witness :
  service default_config [usage_read_fails; scenario_A] at_6_amps
  = Terminated VueError at_6_amps [].
Proof.
  apply (usage_read_failure_stops_the_loop
           default_config usage_read_fails [scenario_A] at_6_amps
           {| PV_currentPower := Ok (Py.of_int 5);
              LOAD_currentPower := Ok (Py.of_int 2) |}
           (Py.of_int 5) (Py.of_int 2) VueError); reflexivity.
Defined.

Example solaredge_failure_is_survived :
  service default_config [solaredge_down; scenario_A] at_6_amps
  = Running {| values := Some [Py.ratio 450 100]; charging_rate := 18 |}
      [PrintSolarEdgeError; Sleep 60;
       UpdateCharger 18; PrintAmpChanged 6 18; Sleep 60].
Proof. vm_compute. reflexivity. Qed.

(** C3. The claim is that a refused write is not fatal.  The write is not
    guarded either: when it raises, the window already holds the fused
    reading of the cycle and the charger object already records the new
    target, but the exception ends the loop. *)
Theorem write_failure_stops_the_loop cfg env rest st p c u raw e :
  1 <= smooth cfg ->
  readings cfg env p c u ->
  let l := most_recent (Z.to_nat (smooth cfg))
             (contents (values st) ++ [available_for_charger_kw p c u]) in
  amps_from_kw (Py.round2 (mean l)) = Ok raw ->
  final_amps cfg raw <> charging_rate st ->
  update_charger_reply env = Raise e ->
  service cfg (env :: rest) st
  = Terminated e {| values := Some l; charging_rate := final_amps cfg raw |}
      [UpdateCharger (final_amps cfg raw)]
  /\ exists older, l = older ++ [available_for_charger_kw p c u].
Proof.
  intros HN HR l HA Hneq Hre. split.
  - apply service_cycle_raises.
    rewrite (cycle_decides cfg env st p c u (mean l) (Some l) raw HR
               (sliding_average_window (values st) _ (smooth cfg) HN) HA).
    cbv zeta.
    unfold changed.
    destruct (Z.eqb_spec (charging_rate st) (final_amps cfg raw)) as [E|E];
      [congruence|].
    cbn [negb]. rewrite Hre. reflexivity.
  - apply most_recent_newest. lia.
Qed.

Lemma write_failure_stops_the_loop_witness :
  service default_config [write_fails; scenario_A] at_6_amps
  = Terminated VueError
      {| values := Some [Py.ratio 450 100]; charging_rate := 18 |}
      [UpdateCharger 18]
  /\ exists older, [Py.ratio 450 100] = older ++ [Py.ratio 450 100].
Proof.
  refine (write_failure_stops_the_loop
            default_config write_fails [scenario_A] at_6_amps
            (Py.of_int 5) (Py.of_int 2) (Py.ratio 25 1000) 18 VueError _ _ _ _ _).
  - vm_compute. discriminate.
  - exists {| PV_currentPower := Ok (Py.of_int 5);
              LOAD_currentPower := Ok (Py.of_int 2) |},
      (charger_usage (Py.ratio 25 1000)).
    repeat split; vm_compute; reflexivity.
  - vm_compute. reflexivity.
  - vm_compute. discriminate.
  - reflexivity.
Defined.

(** ** The charger's rate as the program sees it *)

(** The rate a cycle reports as the previous one is the rate recorded in
    the charger object. *)
Lemma pre_change_is_recorded_rate cfg env st pre :
  (In (PrintNoChange pre) (snd (update_charge_amp_by_solaredge_data cfg env st))
   \/ exists now,
       In (PrintAmpChanged pre now)
         (snd (update_charge_amp_by_solaredge_data cfg env st))) ->
  pre = charging_rate st.
Proof.
  destruct (cycle_takes_a_path cfg env st); cbn [snd];
    intros [Hin|Hin]; in_output; reflexivity.
Qed.

(** After a cycle that returns, the recorded rate is the one before the
    cycle, or the one of the back end's answer to the write. *)
Lemma recorded_rate_after_cycle cfg env st st' out :
  update_charge_amp_by_solaredge_data cfg env st = (Ok tt, st', out) ->
  (charging_rate st' = charging_rate st /\ forall r, ~ In (UpdateCharger r) out)
  \/ (update_charger_reply env = Ok (charging_rate st')
      /\ exists final, final <> charging_rate st /\ In (UpdateCharger final) out).
Proof.
  intros E. pose proof (cycle_takes_a_path cfg env st) as P. rewrite E in P.
  inversion P; subst.
  - left. split; [reflexivity|]. intros r H. in_output.
  - left. split; [reflexivity|]. intros r H. in_output.
  - right. split; [assumption|]. eexists. split; [eassumption|]. left. reflexivity.
Qed.

(** C4, as stated, fails. The charger is at 6 A at start-up and the target
    stays 6 A; before the second cycle the owner sets 20 A from the app.
    The second cycle still reports 6 A as the previous rate and writes
    nothing, so the charger stays at 20 A. *)
Lemma setpoint_is_not_reread :
  startup meter_and_charger = Some at_6_amps
  /\ service default_config [no_sun 6; no_sun 20] at_6_amps
     = Running {| values := Some [Py.of_int (-1); Py.of_int (-1)];
                  charging_rate := 6 |}
         [PrintNoChange 6; Sleep 60; PrintNoChange 6; Sleep 60]
  /\ backend_charging_rate (no_sun 20) <> 6.
Proof. repeat split. vm_compute. discriminate. Qed.

(** C4 (amended). The previous rate a cycle decides on is the rate recorded
    in the charger object found at start-up: the rate the charger had at
    start-up, until a write of the program replaces it by the rate of the
    back end's answer.  The cycle does not read the back end's current
    setpoint, so a change made elsewhere does not reach the decision. *)
Theorem decision_uses_recorded_rate :
  (forall devices st,
      startup devices = Some st ->
      identify_charger devices = Some (charging_rate st))
  /\ (forall cfg env st rate,
         update_charge_amp_by_solaredge_data cfg (with_backend_rate rate env) st
         = update_charge_amp_by_solaredge_data cfg env st)
  /\ (forall cfg env st pre,
         (In (PrintNoChange pre)
            (snd (update_charge_amp_by_solaredge_data cfg env st))
          \/ exists now,
              In (PrintAmpChanged pre now)
                (snd (update_charge_amp_by_solaredge_data cfg env st))) ->
         pre = charging_rate st)
  /\ (forall cfg env st st' out,
         update_charge_amp_by_solaredge_data cfg env st = (Ok tt, st', out) ->
         (charging_rate st' = charging_rate st
          /\ forall r, ~ In (UpdateCharger r) out)
         \/ (update_charger_reply env = Ok (charging_rate st')
             /\ exists final,
                 final <> charging_rate st /\ In (UpdateCharger final) out)).
Proof.
  split; [|split; [|split]].
  - intros devices st. unfold startup.
    destruct (identify_charger devices); [|discriminate].
    intros H. injection H as <-. reflexivity.
  - intros cfg env st rate. reflexivity.
  - exact pre_change_is_recorded_rate.
  - exact recorded_rate_after_cycle.
Qed.

Lemma decision_uses_recorded_rate_witness :
  identify_charger meter_and_charger = Some 6
  /\ 6 = charging_rate at_6_amps.
Proof.
  split.
  - apply (proj1 decision_uses_recorded_rate meter_and_charger at_6_amps).
    reflexivity.
  - apply (proj1 (proj2 (proj2 decision_uses_recorded_rate))
             default_config (no_sun 20) at_6_amps 6).
    left. vm_compute. left. reflexivity.
Defined.

(** ** The scenarios of the specification *)

(** Scenario A: 5.0 - 2.0 + 1.5 = 4.5 kW on an empty window gives 18 A. *)
Example scenario_A_commands_18 :
  update_charge_amp_by_solaredge_data default_config scenario_A at_6_amps
  = (Ok tt, {| values := Some [Py.ratio 450 100]; charging_rate := 18 |},
     [UpdateCharger 18; PrintAmpChanged 6 18]).
Proof. vm_compute. reflexivity. Qed.

(** Scenario C: 3 A is below the floor and becomes 6 A. *)
Example scenario_C_clamps_up : final_amps default_config 3 = 6.
Proof. reflexivity. Qed.

(** Scenario E: an offset of -3 A on 20 A gives 17 A. *)
Example scenario_E_offset :
  final_amps (configure None offset_minus_3) 20 = 17.
Proof. reflexivity. Qed.

(** * Further properties of the program *)

(** ** The target current *)

(** X1. More converted power never lowers the target. *)
Theorem final_amps_monotone (cfg : config) (raw1 raw2 : Z) :
  raw1 <= raw2 -> final_amps cfg raw1 <= final_amps cfg raw2.
Proof.
  intros H. unfold final_amps, clamp. cbv zeta.
  apply Z.max_le_compat_r. apply Z.min_le_compat_r. lia.
Qed.

Lemma final_amps_monotone_witness :
  final_amps default_config 3 <= final_amps default_config 18.
Proof. apply (final_amps_monotone default_config 3 18). lia. Defined.

(** X2. When the upper bound is not above the lower bound, the target is the
    lower bound whatever the power is: the charger is pinned. *)
Theorem final_amps_pinned (cfg : config) (raw : Z) :
  max_amps cfg <= min_amps cfg -> final_amps cfg raw = min_amps cfg.
Proof.
  intros H. unfold final_amps, clamp. cbv zeta.
  apply Z.max_r. apply Z.le_trans with (max_amps cfg); [apply Z.le_min_r|exact H].
Qed.

Lemma final_amps_pinned_witness :
  final_amps (configure None max_amps_3) 30 = 6.
Proof.
  apply (final_amps_pinned (configure None max_amps_3) 30).
  vm_compute. discriminate.
Defined.

(** ** What a cycle writes and what it does to the window *)

(** A write of a cycle carries the target of the cycle, and the target
    differs from the rate recorded before. *)
Lemma cycle_writes_target cfg env st r :
  In (UpdateCharger r) (snd (update_charge_amp_by_solaredge_data cfg env st)) ->
  exists raw, r = final_amps cfg raw /\ r <> charging_rate st.
Proof.
  unfold update_charge_amp_by_solaredge_data.
  destruct (solaredge_get_site_power_flow (SOLAREDGE_SITE cfg) (requests_get env))
    as [ov|?]; [|intros Hin; cbn in Hin; no_such_event Hin].
  unfold bind at 1 2 3. unfold lift at 1 2 3.
  destruct (PV_currentPower ov) as [prod_kw|?]; [|intros Hin; cbn in Hin; no_such_event Hin].
  destruct (LOAD_currentPower ov) as [cons_kw|?]; [|intros Hin; cbn in Hin; no_such_event Hin].
  destruct (get_device_list_usage env) as [dict|?]; [|intros Hin; cbn in Hin; no_such_event Hin].
  unfold bind at 1. unfold call_sliding_average.
  destruct (sliding_average (values st) _ (smooth cfg)) as [[avg|?] buf];
    [|intros Hin; cbn in Hin; no_such_event Hin].
  cbv zeta. unfold bind at 1. unfold lift at 1.
  destruct (amps_from_kw (Py.round2 avg)) as [raw|?];
    [|intros Hin; cbn in Hin; no_such_event Hin].
  unfold bind at 1. unfold get_charging_rate at 1. cbn [charging_rate].
  unfold changed.
  destruct (Z.eqb_spec (charging_rate st) (final_amps cfg raw)) as [E|E];
    cbn [negb]; [intros Hin; cbn in Hin; no_such_event Hin|].
  unfold update_charger, bind, set_charging_rate, get_charging_rate,
    emit, lift, ret. cbn [charging_rate values].
  destruct (update_charger_reply env) as [now|e]; cbn [snd app];
    intros Hin; in_output; exists raw; split; congruence.
Qed.

(** The window after a cycle is the window before it, or what
    [sliding_average] made of it with the readings of the cycle. *)
Lemma cycle_window cfg env st :
  values (snd (fst (update_charge_amp_by_solaredge_data cfg env st))) = values st
  \/ exists p c u,
      readings cfg env p c u
      /\ values (snd (fst (update_charge_amp_by_solaredge_data cfg env st)))
         = snd (sliding_average (values st) (available_for_charger_kw p c u)
                  (smooth cfg)).
Proof.
  destruct (solaredge_get_site_power_flow (SOLAREDGE_SITE cfg) (requests_get env))
    as [ov|e] eqn:H1.
  2:{ left. rewrite (cycle_solaredge_raises cfg env st e H1). reflexivity. }
  destruct (PV_currentPower ov) as [p|e] eqn:H2.
  2:{ left. unfold update_charge_amp_by_solaredge_data.
      rewrite H1. unfold bind, lift. rewrite H2. reflexivity. }
  destruct (LOAD_currentPower ov) as [c|e] eqn:H3.
  2:{ left. unfold update_charge_amp_by_solaredge_data.
      rewrite H1. unfold bind, lift. rewrite H2, H3. reflexivity. }
  destruct (get_device_list_usage env) as [dict|e] eqn:H4.
  2:{ left. rewrite (cycle_usage_raises cfg env st ov p c e H1 H2 H3 H4).
      reflexivity. }
  right. exists p, c, (vue_calc_usage_recursive dict).
  assert (HR : readings cfg env p c (vue_calc_usage_recursive dict)).
  { exists ov, dict. repeat split; assumption. }
  split; [exact HR|]. apply cycle_feeds_filter. exact HR.
Qed.

(** ** Runs of the loop *)

(** One turn of the loop. *)
Lemma service_step cfg env rest st :
  service cfg (env :: rest) st
  = match update_charge_amp_by_solaredge_data cfg env st with
    | (Ok _, st', out) =>
        if update_freq cfg <? 0 then Terminated ValueError st' out
        else emitted (out ++ [Sleep (update_freq cfg)]) (service cfg rest st')
    | (Raise e, st', out) => Terminated e st' out
    end.
Proof.
  cbn [service]. unfold bind.
  destruct (update_charge_amp_by_solaredge_data cfg env st) as [[[u|e] st'] out];
    [|reflexivity].
  unfold time_sleep. destruct (update_freq cfg <? 0).
  - cbn. rewrite app_nil_r. reflexivity.
  - reflexivity.
Qed.

Lemma output_emitted out r : output (emitted out r) = out ++ output r.
Proof. destruct r; reflexivity. Qed.

Lemma reached_emitted out r : reached (emitted out r) = reached r.
Proof. destruct r; reflexivity. Qed.



(** X3. Every write of every run carries a rate between the configured
    lower bound and the larger of the two bounds: never below 6 A, and not
    above 40 A as long as the configured minimum is not. *)
Theorem writes_stay_in_bounds site a envs st r :
  In (UpdateCharger r) (output (service (configure site a) envs st)) ->
  MIN_AMPS <= r
  /\ min_amps (configure site a) <= r
     <= Z.max (min_amps (configure site a)) (max_amps (configure site a))
  /\ (min_amps (configure site a) <= MAX_AMPS -> r <= MAX_AMPS).
Proof.
  revert st. induction envs as [|env rest IH]; intros st H; [destruct H|].
  rewrite service_step in H.
  assert (Hcycle : forall out,
             out = snd (update_charge_amp_by_solaredge_data (configure site a) env st) ->
             In (UpdateCharger r) out ->
             MIN_AMPS <= r
             /\ min_amps (configure site a) <= r
                <= Z.max (min_amps (configure site a)) (max_amps (configure site a))
             /\ (min_amps (configure site a) <= MAX_AMPS -> r <= MAX_AMPS)).
  { intros out -> Hin.
    destruct (cycle_writes_target _ _ _ _ Hin) as (raw & -> & _).
    pose proof (final_amps_floor site a raw).
    pose proof (final_amps_ceiling site a raw).
    unfold final_amps in *. cbv zeta in *.
    pose proof (clamp_lower (raw + offset_amps (configure site a))
                  (min_amps (configure site a)) (max_amps (configure site a))).
    pose proof (clamp_upper (raw + offset_amps (configure site a))
                  (min_amps (configure site a)) (max_amps (configure site a))).
    lia. }
  destruct (update_charge_amp_by_solaredge_data (configure site a) env st)
    as [[[u|e] st'] out] eqn:E; cbn [snd] in Hcycle.
  - destruct (update_freq (configure site a) <? 0).
    + apply (Hcycle out eq_refl H).
    + rewrite output_emitted in H. apply in_app_or in H. destruct H as [H|H].
      * apply in_app_or in H. destruct H as [H|H]; [apply (Hcycle out eq_refl H)|].
        in_output.
      * apply (IH st' H).
  - apply (Hcycle out eq_refl H).
Qed.

Lemma writes_stay_in_bounds_witness :
  MIN_AMPS <= 18 /\ 6 <= 18 <= 40 /\ (6 <= MAX_AMPS -> 18 <= MAX_AMPS).
Proof.
  apply (writes_stay_in_bounds (Some "1234567"%string) no_args
           [solaredge_down; scenario_A] at_6_amps 18).
  vm_compute. right. right. left. reflexivity.
Defined.




(** X6. Without a site identifier (SOLAREDGE_SITE unset or empty) no request
    is made, the empty dictionary is what the cycle reads from, and the
    first cycle ends the loop with KeyError, whatever the servers would
    have answered. *)
Theorem missing_site_stops_the_loop cfg env rest st :
  Py.truthy (SOLAREDGE_SITE cfg) = false ->
  service cfg (env :: rest) st = Terminated KeyError st [].
Proof.
  intros H. apply service_cycle_raises.
  unfold update_charge_amp_by_solaredge_data, solaredge_get_site_power_flow.
  rewrite H. reflexivity.
Qed.

Lemma missing_site_stops_the_loop_witness :
  service (configure None no_args) [scenario_A; scenario_A] at_6_amps
  = Terminated KeyError at_6_amps [].
Proof.
  apply (missing_site_stops_the_loop (configure None no_args) scenario_A
           [scenario_A] at_6_amps).
  reflexivity.
Defined.

(** X7. A 200 answer that lacks one of the two readings is not caught by
    the handler of the read: the look-up raises after it, the state is
    untouched, nothing is written and the loop ends. *)
Theorem malformed_answer_stops_the_loop cfg env rest st ov e :
  solaredge_get_site_power_flow (SOLAREDGE_SITE cfg) (requests_get env) = Ok ov ->
  (PV_currentPower ov = Raise e
   \/ (exists p, PV_currentPower ov = Ok p) /\ LOAD_currentPower ov = Raise e) ->
  service cfg (env :: rest) st = Terminated e st [].
Proof.
  intros H1 H. apply service_cycle_raises.
  unfold update_charge_amp_by_solaredge_data. rewrite H1. unfold bind, lift.
  destruct H as [H2|[[p H2] H3]].
  - rewrite H2. reflexivity.
  - rewrite H2, H3. reflexivity.
Qed.

Lemma malformed_answer_stops_the_loop_witness :
  service default_config [no_load_reading; scenario_A] at_6_amps
  = Terminated KeyError at_6_amps [].
Proof.
  apply (malformed_answer_stops_the_loop default_config no_load_reading
           [scenario_A] at_6_amps
           {| PV_currentPower := Ok (Py.of_int 5);
              LOAD_currentPower := Raise KeyError |} KeyError).
  - reflexivity.
  - right. split; [exists (Py.of_int 5)|]; reflexivity.
Defined.



(** ** The window over a run *)

(** X9. Only a cycle whose three reads all succeed touches the window: when
    one of them fails, the window after the cycle is the window before
    it, whichever way the cycle ends. *)
Theorem failed_read_keeps_window cfg env st :
  ~ (exists p c u, readings cfg env p c u) ->
  values (snd (fst (update_charge_amp_by_solaredge_data cfg env st))) = values st.
Proof.
  intros H. destruct (cycle_window cfg env st) as [E|(p & c & u & HR & _)].
  - exact E.
  - exfalso. apply H. exists p, c, u. exact HR.
Qed.

Lemma failed_read_keeps_window_witness :
  values (snd (fst (update_charge_amp_by_solaredge_data default_config
                      usage_read_fails at_6_amps)))
  = values at_6_amps.
Proof.
  apply (failed_read_keeps_window default_config usage_read_fails at_6_amps).
  intros (p & c & u & ov & dict & _ & _ & _ & H & _). discriminate H.
Defined.

(** What one call does to the length of the buffer. *)
Lemma sliding_average_length buf num list_size :
  1 <= list_size ->
  Py.len (contents (snd (sliding_average buf num list_size))) <= list_size.
Proof.
  intros HN. rewrite (sliding_average_window buf num list_size HN).
  cbv zeta. cbn [snd contents]. unfold Py.len. rewrite length_most_recent. lia.
Qed.

(** X10. With a window size of at least 1, a run that starts with no more
    than [smooth] values in the window never holds more, whatever the
    cycles do and however the run ends. *)
Theorem window_stays_bounded_over_a_run cfg envs st :
  1 <= smooth cfg ->
  Py.len (contents (values st)) <= smooth cfg ->
  Py.len (contents (values (reached (service cfg envs st)))) <= smooth cfg.
Proof.
  intros HN. revert st. induction envs as [|env rest IH]; intros st Hst;
    [exact Hst|].
  rewrite service_step.
  assert (Hst' : Py.len (contents (values (snd (fst
                   (update_charge_amp_by_solaredge_data cfg env st))))) <= smooth cfg).
  { destruct (cycle_window cfg env st) as [E|(p & c & u & _ & E)]; rewrite E.
    - exact Hst.
    - apply sliding_average_length. exact HN. }
  destruct (update_charge_amp_by_solaredge_data cfg env st)
    as [[[u|e] st'] out]; cbn [fst snd] in Hst'.
  - destruct (update_freq cfg <? 0); [exact Hst'|].
    rewrite reached_emitted. apply IH. exact Hst'.
  - exact Hst'.
Qed.

Lemma window_stays_bounded_over_a_run_witness :
  Py.len (contents (values (reached
    (service default_config
       [scenario_A; no_sun 6; scenario_A; no_sun 6; scenario_A; no_sun 6;
        scenario_A] at_6_amps)))) <= 5.
Proof.
  apply (window_stays_bounded_over_a_run default_config
           [scenario_A; no_sun 6; scenario_A; no_sun 6; scenario_A; no_sun 6;
            scenario_A] at_6_amps).
  - vm_compute. discriminate.
  - vm_compute. discriminate.
Defined.

(** X11. [sliding_average] raises exactly when the window size is negative
    and the slice drops everything, the new value included: when the
    buffer held fewer than [- list_size] values. *)
Theorem sliding_average_raises_iff buf num list_size :
  (exists e, fst (sliding_average buf num list_size) = Raise e)
  <-> list_size < 0 /\ Py.len (contents buf) + 1 <= - list_size.
Proof.
  unfold sliding_average, contents. cbv zeta. cbn [fst].
  set (l := match buf with None => [] | Some l => l end ++ [num]).
  assert (Hlen : Py.len l = Py.len match buf with None => [] | Some l => l end + 1).
  { unfold Py.len, l. rewrite length_app. cbn [List.length]. lia. }
  rewrite <- Hlen.
  assert (Hpos : 0 <= Py.len match buf with None => [] | Some l => l end)
    by (unfold Py.len; lia).
  unfold Py.div_int.
  set (l' := if Py.len l >? list_size then Py.slice_from (- list_size) l else l).
  assert (Hl' : Py.len l' = 0 <-> list_size < 0 /\ Py.len l <= - list_size).
  { unfold l', Py.slice_from.
    destruct (Z.gtb_spec (Py.len l) list_size) as [G|G]; [|lia].
    destruct (Z.ltb_spec (- list_size) 0) as [L|L];
      unfold Py.len in *; rewrite length_skipn; lia. }
  destruct (Z.eqb_spec (Py.len l') 0) as [E|E]; split.
  - intros _. apply Hl'. exact E.
  - intros _. exists ZeroDivisionError. reflexivity.
  - intros [e He]. discriminate He.
  - intros H. apply Hl' in H. contradiction.
Qed.

(** X12. Started with a negative window size, the program does not get
    through its first cycle with good readings: the slice empties the
    buffer and the average raises ZeroDivisionError, before any decision
    is taken. *)
Theorem negative_smooth_stops_the_loop cfg env rest st p c u :
  smooth cfg < 0 ->
  values st = None ->
  readings cfg env p c u ->
  service cfg (env :: rest) st
  = Terminated ZeroDivisionError
      {| values := Some []; charging_rate := charging_rate st |} [].
Proof.
  intros HN Hv (ov & dict & H1 & H2 & H3 & H4 & H5).
  apply service_cycle_raises.
  unfold update_charge_amp_by_solaredge_data.
  rewrite H1. unfold bind at 1 2 3. unfold lift at 1 2 3. rewrite H2, H3, H4, H5.
  unfold bind at 1. unfold call_sliding_average. rewrite Hv.
  unfold sliding_average. cbv zeta. cbn [app].
  change (Py.len [available_for_charger_kw p c u]) with 1.
  destruct (Z.gtb_spec 1 (smooth cfg)) as [G|G]; [|lia].
  unfold Py.slice_from.
  destruct (Z.ltb_spec (- smooth cfg) 0) as [L|L]; [lia|].
  change (Py.len [available_for_charger_kw p c u]) with 1.
  replace (Z.to_nat (Z.min (- smooth cfg) 1)) with 1%nat by lia.
  reflexivity.
Qed.

Lemma negative_smooth_stops_the_loop_witness :
  service (configure (Some "1234567"%string) smooth_minus_2)
    [scenario_A; scenario_A] at_6_amps
  = Terminated ZeroDivisionError
      {| values := Some []; charging_rate := 6 |} [].
Proof.
  apply (negative_smooth_stops_the_loop
           (configure (Some "1234567"%string) smooth_minus_2)
           scenario_A [scenario_A] at_6_amps
           (Py.of_int 5) (Py.of_int 2) (Py.ratio 25 1000)).
  - reflexivity.
  - reflexivity.
  - exists {| PV_currentPower := Ok (Py.of_int 5);
              LOAD_currentPower := Ok (Py.of_int 2) |},
      (charger_usage (Py.ratio 25 1000)).
    repeat split; vm_compute; reflexivity.
Defined.

(** ** Readings that are not numbers *)

Lemma add_nan_r (x : Py.float) : Py.add x S754_nan = S754_nan.
Proof. destruct x; reflexivity. Qed.

Lemma sub_nan_r (x : Py.float) : Py.sub x S754_nan = S754_nan.
Proof. destruct x; reflexivity. Qed.

Lemma sum_nan_last (l : list Py.float) : Py.sum (l ++ [S754_nan]) = S754_nan.
Proof. unfold Py.sum. rewrite fold_left_app. cbn [fold_left]. apply add_nan_r. Qed.

(** A NaN among the three readings makes the fused reading NaN. *)
Lemma available_for_charger_kw_nan (p c u : Py.float) :
  p = S754_nan \/ c = S754_nan \/ u = S754_nan ->
  available_for_charger_kw p c u = S754_nan.
Proof.
  unfold available_for_charger_kw. cbv zeta. intros [->|[->| ->]].
  - reflexivity.
  - rewrite sub_nan_r. reflexivity.
  - change (Py.round2 (Py.mul S754_nan (Py.of_int 60))) with S754_nan.
    rewrite add_nan_r. reflexivity.
Qed.

Lemma cycle_conversion_raises cfg env st p c u avg buf e :
  readings cfg env p c u ->
  sliding_average (values st) (available_for_charger_kw p c u) (smooth cfg)
    = (Ok avg, buf) ->
  amps_from_kw (Py.round2 avg) = Raise e ->
  update_charge_amp_by_solaredge_data cfg env st
  = (Raise e, {| values := buf; charging_rate := charging_rate st |}, []).
Proof.
  intros (ov & dict & H1 & H2 & H3 & H4 & H5) HS HA.
  unfold update_charge_amp_by_solaredge_data.
  rewrite H1. unfold bind at 1 2 3. unfold lift at 1 2 3. rewrite H2, H3, H4, H5.
  unfold bind at 1. unfold call_sliding_average. rewrite HS.
  cbv zeta. unfold bind at 1. unfold lift at 1. rewrite HA. reflexivity.
Qed.

(** X13. A reading that is NaN (the JSON decoder accepts it) ends the loop:
    with a window size of at least 1 the NaN enters the window, the
    average is NaN, [int] refuses it with ValueError, and nothing is
    written. *)
Theorem nan_reading_stops_the_loop cfg env rest st p c u :
  1 <= smooth cfg ->
  readings cfg env p c u ->
  p = S754_nan \/ c = S754_nan \/ u = S754_nan ->
  exists older,
    service cfg (env :: rest) st
    = Terminated ValueError
        {| values := Some (older ++ [S754_nan]);
           charging_rate := charging_rate st |} [].
Proof.
  intros HN HR Hnan.
  pose proof (available_for_charger_kw_nan p c u Hnan) as Ef.
  pose proof (sliding_average_window (values st) (available_for_charger_kw p c u)
                (smooth cfg) HN) as HS.
  cbv zeta in HS. rewrite Ef in HS.
  destruct (most_recent_newest (Z.to_nat (smooth cfg)) (contents (values st))
              S754_nan) as [older Ho]; [lia|].
  rewrite Ho in HS. exists older. apply service_cycle_raises.
  rewrite <- Ef in HS at 1.
  apply (cycle_conversion_raises cfg env st p c u _ _ ValueError HR HS).
  unfold mean. rewrite sum_nan_last. reflexivity.
Qed.

Lemma nan_reading_stops_the_loop_witness :
  exists older,
    service default_config [nan_production; scenario_A] at_6_amps
    = Terminated ValueError
        {| values := Some (older ++ [S754_nan]); charging_rate := 6 |} [].
Proof.
  apply (nan_reading_stops_the_loop default_config nan_production [scenario_A]
           at_6_amps S754_nan (Py.of_int 2) (Py.ratio 25 1000)).
  - vm_compute. discriminate.
  - exists {| PV_currentPower := Ok S754_nan;
              LOAD_currentPower := Ok (Py.of_int 2) |},
      (charger_usage (Py.ratio 25 1000)).
    repeat split; vm_compute; reflexivity.
  - left. reflexivity.
Defined.

(** ** The usage of the charger *)

Lemma device_usage_flat (usage : Py.float) (d : device) :
  flat d -> device_usage usage d = fold_left Py.add (channel_usages d) usage.
Proof.
  destruct d as [channels]. cbn [flat device_usage channel_usages].
  intros H. revert usage.
  induction H as [|[u nested] rest Hc _ IH]; intros usage; [reflexivity|].
  cbn [fold_left flat_map]. subst nested. rewrite IH.
  destruct u as [x|]; reflexivity.
Qed.

(** X14. On a usage dictionary without nested devices the charger's usage
    is the sum, from left to right, of the usages that are numbers;
    channels whose usage is [None] are passed over. *)
Theorem vue_calc_usage_recursive_flat (usage_dict : list device) :
  Forall flat usage_dict ->
  vue_calc_usage_recursive usage_dict = Py.sum (flat_map channel_usages usage_dict).
Proof.
  unfold vue_calc_usage_recursive, Py.sum. generalize (S754_zero false).
  intros acc H. revert acc.
  induction H as [|d rest Hd _ IH]; intros acc; [reflexivity|].
  cbn [fold_left flat_map]. rewrite fold_left_app, IH, device_usage_flat by exact Hd.
  reflexivity.
Qed.

Lemma vue_calc_usage_recursive_flat_witness :
  vue_calc_usage_recursive
    [Device [Channel (Some (Py.ratio 25 1000)) []; Channel None []];
     Device [Channel (Some (Py.ratio 1 8)) []]]
  = Py.sum [Py.ratio 25 1000; Py.ratio 1 8].
Proof.
  apply (vue_calc_usage_recursive_flat
           [Device [Channel (Some (Py.ratio 25 1000)) []; Channel None []];
            Device [Channel (Some (Py.ratio 1 8)) []]]).
  repeat constructor.
Defined.

(** ** Finding the charger *)

(** X15. The charger the program controls is the first device of the account
    that has one, with the rate it reports; the program exits when no
    device has a charger. *)
Theorem identify_charger_first (devices : list vue_device) :
  (forall rate,
      identify_charger devices = Some rate
      <-> exists before d after,
          devices = before ++ d :: after
          /\ Forall (fun x => ev_charger x = None) before
          /\ ev_charger d = Some rate)
  /\ (startup devices = None
      <-> Forall (fun x => ev_charger x = None) devices).
Proof.
  split.
  - intros rate. induction devices as [|d rest IH]; cbn [identify_charger].
    + split; [discriminate|]. intros (before & d & after & E & _).
      destruct before; discriminate E.
    + destruct (ev_charger d) as [r|] eqn:Ed.
      * split.
        -- intros H. injection H as <-. exists [], d, rest. repeat split; auto.
        -- intros (before & d' & after & E & Hb & Hd).
           destruct before as [|b before]; cbn in E; injection E as -> _.
           ++ congruence.
           ++ inversion Hb; congruence.
      * rewrite IH. split.
        -- intros (before & d' & after & -> & Hb & Hd).
           exists (d :: before), d', after. repeat split; auto.
        -- intros (before & d' & after & E & Hb & Hd).
           destruct before as [|b before]; cbn in E; injection E as -> ->.
           ++ congruence.
           ++ exists before, d', after. inversion Hb. repeat split; auto.
  - unfold startup. induction devices as [|d rest IH]; cbn [identify_charger].
    + split; [constructor|reflexivity].
    + destruct (ev_charger d) as [r|] eqn:Ed.
      * split; [discriminate|]. intros H. inversion H; congruence.
      * rewrite IH. split; [constructor; assumption|].
        intros H. inversion H; assumption.
Qed.

(** ** The command line *)

Section CommandLineFacts.

Local Open Scope string_scope.

Lemma parse_arg_sets (d : list (string * value)) (arg : string) :
  parse_arg d arg = dict_set (key_of arg) (value_of arg) d.
Proof.
  unfold parse_arg, key_of, value_of.
  destruct (split_eq (lstrip_dashes arg)) as [[key v]|]; reflexivity.
Qed.

Lemma dict_get_set_same k v d : dict_get k (dict_set k v d) = Some v.
Proof.
  induction d as [|[k' v'] d IH]; cbn [dict_set dict_get].
  - rewrite String.eqb_refl. reflexivity.
  - destruct (String.eqb_spec k' k) as [E|E]; cbn [dict_get].
    + subst. rewrite String.eqb_refl. reflexivity.
    + destruct (String.eqb_spec k' k); [contradiction|]. exact IH.
Qed.

Lemma dict_get_set_other k k' v d :
  k' <> k -> dict_get k (dict_set k' v d) = dict_get k d.
Proof.
  intros Hne. induction d as [|[k0 v0] d IH]; cbn [dict_set dict_get].
  - destruct (String.eqb_spec k' k); [contradiction|]. reflexivity.
  - destruct (String.eqb_spec k0 k') as [E|E]; cbn [dict_get].
    + subst k0. destruct (String.eqb_spec k' k); [contradiction|]. reflexivity.
    + destruct (String.eqb_spec k0 k); [reflexivity|]. exact IH.
Qed.

Lemma parse_args_app argv1 argv2 :
  parse_args (argv1 ++ argv2) = fold_left parse_arg argv2 (parse_args argv1).
Proof. unfold parse_args. apply fold_left_app. Qed.

Lemma fold_parse_arg_other k argv d :
  Forall (fun a => key_of a <> k) argv ->
  dict_get k (fold_left parse_arg argv d) = dict_get k d.
Proof.
  intros H. revert d. induction H as [|a rest Ha _ IH]; intros d; [reflexivity|].
  cbn [fold_left]. rewrite IH, parse_arg_sets. apply dict_get_set_other. exact Ha.
Qed.

(** X16. The value of an option is the one of its last occurrence on the
    command line: earlier occurrences and the other options do not
    matter. *)
Theorem last_occurrence_wins (earlier later : list string) (arg : string) :
  Forall (fun a => key_of a <> key_of arg) later ->
  dict_get (key_of arg) (parse_args (earlier ++ arg :: later))
  = Some (value_of arg).
Proof.
  intros H. rewrite parse_args_app. cbn [fold_left].
  rewrite (fold_parse_arg_other (key_of arg) later _ H), parse_arg_sets.
  apply dict_get_set_same.
Qed.

Lemma last_occurrence_wins_witness :
  dict_get "max_amps"
    (parse_args ["max_amps=16"; "--freq=30"; "-max_amps=32"; "verbose=1"])
  = Some (VStr "32").
Proof.
  apply (last_occurrence_wins ["max_amps=16"; "--freq=30"] ["verbose=1"]
           "-max_amps=32").
  repeat constructor. vm_compute. discriminate.
Defined.

Lemma lstrip_dashes_dashes (n : nat) (s : string) :
  lstrip_dashes (dashes n ++ s) = lstrip_dashes s.
Proof. induction n as [|n IH]; [reflexivity|]. cbn. exact IH. Qed.

Lemma lstrip_dashes_app (k s : string) :
  k <> "" -> lstrip_dashes k = k -> lstrip_dashes (k ++ s) = k ++ s.
Proof.
  destruct k as [|a k]; [congruence|]. intros _. cbn.
  destruct (Ascii.eqb a "-") eqn:E; [|reflexivity].
  intros H. exfalso.
  assert (L : forall t, (String.length (lstrip_dashes t) <= String.length t)%nat).
  { induction t as [|b t IHt]; cbn; [lia|]. destruct (Ascii.eqb b "-"); cbn; lia. }
  pose proof (L k) as Hk. rewrite H in Hk. cbn in Hk. lia.
Qed.

Lemma split_eq_app (k v : string) :
  split_eq k = None -> split_eq (k ++ String "=" v) = Some (k, v).
Proof.
  induction k as [|a k IH]; cbn.
  - intros _. reflexivity.
  - destruct (Ascii.eqb a "="); [discriminate|].
    destruct (split_eq k) as [[key v']|]; [discriminate|].
    intros _. rewrite IH by reflexivity. reflexivity.
Qed.

(** X17. How an argument is read. Leading dashes are optional and any number
    of them is dropped; [key=text] sets the key to the text after the
    first [=], so the text may hold further [=]; a key alone is set to
    [True]. *)
Theorem argument_forms (n : nat) (k v : string) :
  k <> "" -> lstrip_dashes k = k -> split_eq k = None ->
  (key_of (dashes n ++ k ++ String "=" v) = k
   /\ value_of (dashes n ++ k ++ String "=" v) = VStr v)
  /\ (key_of (dashes n ++ k) = k /\ value_of (dashes n ++ k) = VTrue).
Proof.
  intros Hk Hd He. unfold key_of, value_of.
  rewrite !lstrip_dashes_dashes, (lstrip_dashes_app k _ Hk Hd), Hd.
  rewrite (split_eq_app k v He), He. repeat split.
Qed.

Lemma argument_forms_witness :
  (key_of "--offset_amps=a=b" = "offset_amps"
   /\ value_of "--offset_amps=a=b" = VStr "a=b")
  /\ (key_of "--offset_amps" = "offset_amps"
      /\ value_of "--offset_amps" = VTrue).
Proof.
  apply (argument_forms 2 "offset_amps" "a=b"); [discriminate|reflexivity|reflexivity].
Defined.

Lemma dict_in_set k k' v d :
  dict_in k d = true -> dict_in k (dict_set k' v d) = true.
Proof.
  unfold dict_in. destruct (String.eqb_spec k' k) as [E|E].
  - subst. rewrite dict_get_set_same. reflexivity.
  - rewrite (dict_get_set_other k k' v d E). auto.
Qed.

Lemma dict_in_parse_args k argv arg :
  In arg argv -> key_of arg = k -> dict_in k (parse_args argv) = true.
Proof.
  intros Hin Hk. apply in_split in Hin. destruct Hin as (l1 & l2 & ->).
  rewrite parse_args_app. cbn [fold_left]. rewrite parse_arg_sets, Hk.
  assert (H0 : dict_in k (dict_set k (value_of arg) (parse_args l1)) = true).
  { unfold dict_in. rewrite dict_get_set_same. reflexivity. }
  revert H0. generalize (dict_set k (value_of arg) (parse_args l1)).
  induction l2 as [|a l2 IH]; intros d H0; [exact H0|].
  cbn [fold_left]. apply IH. rewrite parse_arg_sets. apply dict_in_set. exact H0.
Qed.

Variable int_of_str : string -> result Z.
Variable verbose_of_str : string -> result bool.

(** X18. An argument asking for help, anywhere on the command line, ends the
    program with the usage text before any other option is looked at, so
    also when another option is not a number. *)
Theorem help_wins (site : option string) (argv : list string) (arg : string) :
  In arg argv ->
  key_of arg = "help" \/ key_of arg = "h" \/ key_of arg = "?" ->
  settings int_of_str verbose_of_str site argv = Exit0.
Proof.
  intros Hin Hk. unfold settings. cbv zeta.
  destruct Hk as [Hk|[Hk|Hk]];
    rewrite (dict_in_parse_args _ argv arg Hin Hk), ?orb_true_r; reflexivity.
Qed.

Lemma int_option_started k d o :
  int_option int_of_str k d = Started o ->
  match dict_get k d with
  | None => o = None
  | Some v => exists n, int_of_value int_of_str v = Ok n /\ o = Some n
  end.
Proof.
  unfold int_option. destruct (dict_get k d) as [v|].
  - destruct (int_of_value int_of_str v) as [n|e]; [|discriminate].
    intros H. injection H as <-. exists n. split; reflexivity.
  - intros H. injection H as <-. reflexivity.
Qed.

(** What the start has checked when it goes through. *)
Lemma settings_started (site : option string) (argv : list string) (cfg : config) :
  settings int_of_str verbose_of_str site argv = Started cfg ->
  exists a,
    cfg = configure site a
    /\ int_option int_of_str "freq" (parse_args argv) = Started (arg_freq a)
    /\ int_option int_of_str "smooth" (parse_args argv) = Started (arg_smooth a)
    /\ int_option int_of_str "min_amps" (parse_args argv) = Started (arg_min_amps a)
    /\ int_option int_of_str "max_amps" (parse_args argv) = Started (arg_max_amps a)
    /\ int_option int_of_str "offset_amps" (parse_args argv)
       = Started (arg_offset_amps a)
    /\ dict_get "verbose" (parse_args argv) <> Some VTrue.
Proof.
  unfold settings. cbv zeta.
  destruct (dict_in "help" _ || dict_in "h" _ || dict_in "?" _); [discriminate|].
  destruct (int_option int_of_str "freq" _) as [| |f]; try discriminate.
  destruct (int_option int_of_str "smooth" _) as [| |s]; try discriminate.
  destruct (int_option int_of_str "min_amps" _) as [| |mi]; try discriminate.
  destruct (int_option int_of_str "max_amps" _) as [| |ma]; try discriminate.
  destruct (int_option int_of_str "offset_amps" _) as [| |o]; try discriminate.
  cbn [start_bind]. unfold verbose_option.
  destruct (dict_get "verbose" (parse_args argv)) as [[|t]|] eqn:V;
    cbn [start_bind]; try discriminate;
    try (destruct (verbose_of_str t); cbn [start_bind]; try discriminate);
    intros H; injection H as <-;
    (eexists {| arg_freq := f; arg_smooth := s; arg_min_amps := mi;
                arg_max_amps := ma; arg_offset_amps := o |};
     repeat split; discriminate).
Qed.

(** X19. Whatever the command line, a program that gets through its start
    has a lower bound of at least 6 A and an upper bound of at most 40 A,
    and every current it then computes is at least 6 A. *)
Theorem started_settings_are_bounded
  (site : option string) (argv : list string) (cfg : config) :
  settings int_of_str verbose_of_str site argv = Started cfg ->
  MIN_AMPS <= min_amps cfg
  /\ max_amps cfg <= MAX_AMPS
  /\ forall raw, MIN_AMPS <= final_amps cfg raw.
Proof.
  intros H. destruct (settings_started site argv cfg H) as (a & -> & _).
  split; [apply configure_min_amps|]. split; [apply configure_max_amps|].
  intros raw. apply final_amps_floor.
Qed.

(** X20. An option given without a value is read as the number 1
    ([int(True)]).  For [max_amps] this puts the upper bound at 1 A,
    below the lower bound, and the charger is pinned at the lower bound;
    for [freq] the loop runs every second. *)
Theorem bare_option_is_one (site : option string) (argv : list string) (cfg : config) :
  settings int_of_str verbose_of_str site argv = Started cfg ->
  (dict_get "max_amps" (parse_args argv) = Some VTrue ->
   max_amps cfg = 1 /\ forall raw, final_amps cfg raw = min_amps cfg)
  /\ (dict_get "min_amps" (parse_args argv) = Some VTrue -> min_amps cfg = MIN_AMPS)
  /\ (dict_get "freq" (parse_args argv) = Some VTrue -> update_freq cfg = 1)
  /\ (dict_get "smooth" (parse_args argv) = Some VTrue -> smooth cfg = 1)
  /\ (dict_get "offset_amps" (parse_args argv) = Some VTrue -> offset_amps cfg = 1).
Proof.
  intros H.
  destruct (settings_started site argv cfg H)
    as (a & -> & Hf & Hs & Hmi & Hma & Ho & _).
  apply int_option_started in Hf, Hs, Hmi, Hma, Ho.
  split; [|split; [|split; [|split]]]; intros E.
  - rewrite E in Hma. destruct Hma as (n & Hn & Ea). injection Hn as <-.
    assert (M : max_amps (configure site a) = 1) by (cbn; rewrite Ea; reflexivity).
    split; [exact M|]. intros raw.
    pose proof (configure_min_amps site a) as Hmin.
    unfold final_amps, clamp. cbv zeta. rewrite M. unfold MIN_AMPS in Hmin. lia.
  - rewrite E in Hmi. destruct Hmi as (n & Hn & Ea). injection Hn as <-.
    cbn. rewrite Ea. reflexivity.
  - rewrite E in Hf. destruct Hf as (n & Hn & Ea). injection Hn as <-.
    cbn. rewrite Ea. reflexivity.
  - rewrite E in Hs. destruct Hs as (n & Hn & Ea). injection Hn as <-.
    cbn. rewrite Ea. reflexivity.
  - rewrite E in Ho. destruct Ho as (n & Hn & Ea). injection Hn as <-.
    cbn. rewrite Ea. reflexivity.
Qed.

(** X21. The program does not start when the text of a numeric option is
    refused by [int], nor when [verbose] is given without a value (the
    test of line 82 then calls a string method on [True]). *)
Theorem refused_options_prevent_the_start
  (site : option string) (argv : list string) (cfg : config) :
  ((exists k s e,
       In k ["freq"; "smooth"; "min_amps"; "max_amps"; "offset_amps"]
       /\ dict_get k (parse_args argv) = Some (VStr s)
       /\ int_of_str s = Raise e)
   \/ dict_get "verbose" (parse_args argv) = Some VTrue) ->
  settings int_of_str verbose_of_str site argv <> Started cfg.
Proof.
  intros Hbad H.
  destruct (settings_started site argv cfg H)
    as (a & _ & Hf & Hs & Hmi & Hma & Ho & Hv).
  destruct Hbad as [(k & s & e & Hk & Hg & Hr)|Hbad]; [|contradiction].
  apply int_option_started in Hf, Hs, Hmi, Hma, Ho.
  cbn [In] in Hk.
  destruct Hk as [<-|[<-|[<-|[<-|[<-|[]]]]]];
    rewrite Hg in *;
    match goal with
    | X : exists n, int_of_value _ (VStr s) = Ok n /\ _ |- _ =>
        destruct X as (n & Hn & _); cbn in Hn; congruence
    end.
Qed.

End CommandLineFacts.

Lemma help_wins_witness :
  settings int_of_digits quiet None ["min_amps=six"%string; "--help"%string]
  = Exit0.
Proof.
  apply (help_wins int_of_digits quiet None
           ["min_amps=six"%string; "--help"%string] "--help"%string).
  - right. left. reflexivity.
  - left. reflexivity.
Defined.

Lemma started_settings_are_bounded_witness :
  MIN_AMPS <= min_amps (configure None (args_of_min_max 50 3))
  /\ max_amps (configure None (args_of_min_max 50 3)) <= MAX_AMPS
  /\ forall raw, MIN_AMPS <= final_amps (configure None (args_of_min_max 50 3)) raw.
Proof.
  apply (started_settings_are_bounded int_of_digits quiet None
           ["min_amps=50"%string; "max_amps=3"%string]
           (configure None (args_of_min_max 50 3))).
  reflexivity.
Defined.

Lemma bare_option_is_one_witness :
  max_amps (configure None (args_of_min_max 6 1)) = 1
  /\ forall raw,
      final_amps (configure None (args_of_min_max 6 1)) raw
      = min_amps (configure None (args_of_min_max 6 1)).
Proof.
  apply (proj1 (bare_option_is_one int_of_digits quiet None
                  ["min_amps=6"%string; "--max_amps"%string]
                  (configure None (args_of_min_max 6 1)) eq_refl)).
  reflexivity.
Defined.

Lemma refused_options_prevent_the_start_witness :
  settings int_of_digits quiet None ["freq=fast"%string]
  <> Started (configure None no_args).
Proof.
  apply (refused_options_prevent_the_start int_of_digits quiet None
           ["freq=fast"%string] (configure None no_args)).
  left. exists "freq"%string, "fast"%string, ValueError.
  split; [left; reflexivity|]. split; reflexivity.
Defined.
